(** * MouseMovester: the random mouse mover, embedded and verified

    A shallow embedding of [MouseMovester.py].  The class [RandomMouseMover]
    becomes a record [mover]; its methods become computations in a small
    state-and-exception monad [M] over a [state] made of the object and
    of the world it talks to (random generator, pyautogui, threads, console).

    Everything outside the program is an oracle stored in the world:
    - [rng]          the raw values the random generator will deliver;
    - [gui]          for every pyautogui call, whether it returns or raises;
    - [flag_cleared] for every [time.sleep], whether another thread called
                     [stop()] (cleared [self.running]) while we slept;
    - [join_delay]   for every blocking [Thread.join], how long the joined
                     thread still needs before it exits (if it ever does).
    What the program does to the world is recorded in [trace].

    The [while self.running] loop takes fuel, the number of cycles it may
    run; [main()], which only starts the mover and sleeps until it stops,
    is not embedded. *)

From Stdlib Require Import String ZArith List Bool Lia.
Import ListNotations.

#[local] Open Scope string_scope.
#[local] Open Scope list_scope.
#[local] Open Scope Z_scope.

(* ================================================================== *)
(** ** Exceptions *)

(** The exception classes that occur.  [FailSafeException] is pyautogui's
    (it derives from [PyAutoGUIException], which derives from [Exception]);
    [KeyboardInterrupt] and [SystemExit] derive from [BaseException] only. *)
Inductive exn : Type :=
| FailSafeException
| KeyboardInterrupt
| SystemExit
| ValueError
| RuntimeError
| OtherException (name : string).

(** [isinstance(e, pyautogui.FailSafeException)] *)
Definition is_FailSafeException (e : exn) : bool :=
  match e with FailSafeException => true | _ => false end.

(** [isinstance(e, KeyboardInterrupt)] *)
Definition is_KeyboardInterrupt (e : exn) : bool :=
  match e with KeyboardInterrupt => true | _ => false end.

(** [isinstance(e, Exception)] *)
Definition is_Exception (e : exn) : bool :=
  match e with
  | KeyboardInterrupt | SystemExit => false
  | FailSafeException | ValueError | RuntimeError | OtherException _ => true
  end.

Inductive result (A : Type) : Type :=
| Ok (a : A)
| Raise (e : exn).
Arguments Ok {A} a.
Arguments Raise {A} e.

(* ================================================================== *)
(** ** Data model *)

(** An avoidance region, the tuple [(left, top, right, bottom)]. *)
Definition region : Type := Z * Z * Z * Z.

(** One constructor per [print] of the program; the numbers a message
    interpolates are kept, the clock time of [time.strftime] is not. *)
Inductive message : Type :=
| MsgMonitorSize (w h : Z)
| MsgWin32Fallback (e : exn)
| MsgDefinedRegions
| MsgRegion (r : region)
| MsgSkipping (x y : Z)
| MsgMoved (x y : Z)
| MsgErrorMoving (e : exn)
| MsgLoopStarted
| MsgEmergencyStop
| MsgKeyboardInterrupt
| MsgUnexpected (e : exn)
| MsgAlreadyRunning
| MsgStopped.

(** What the program does to the outside, in the order it does it.
    A call is recorded when it is made, whether it then returns or raises.
    Durations are in milliseconds. *)
Inductive event : Type :=
| Print (m : message)
| Randint (a b : Z)
| MoveTo (x y : Z) (duration : Z)
| Click
| Sleep (ms : Z)
| ThreadStart (t : nat)
| Join (t : nat) (timeout : Z).

Inductive thread_status : Type := Created | Alive | Finished.

(** The object: the attributes of a [RandomMouseMover]. *)
Record mover : Type := mkMover {
  running : bool;
  thread : option nat;
  screen_width : Z;
  screen_height : Z;
  avoid_regions : list region
}.

(** The world around the object.  [current] is the thread that executes
    ([None] for the main thread, [Some t] for the t-th created thread);
    [waited] is the time spent blocked in [time.sleep] and [Thread.join]. *)
Record world : Type := mkWorld {
  rng : list Z;
  gui : list (option exn);
  flag_cleared : list bool;
  join_delay : list (option N);
  threads : list thread_status;
  current : option nat;
  waited : Z;
  trace : list event
}.

Record state : Type := mkState {
  self : mover;
  env : world
}.

(** What [get_primary_monitor_size] finds on the machine: the import-time flag
    [WINDOWS_AVAILABLE], the outcome of [win32api.GetMonitorInfo] (the
    ["Monitor"] rectangle, or the exception raised) and the outcome of
    [pyautogui.size()] (the size, or the exception raised). *)
Record platform : Type := mkPlatform {
  WINDOWS_AVAILABLE : bool;
  win32_monitor : exn + region;
  pyautogui_size : exn + Z * Z
}.

(* ================================================================== *)
(** ** The monad: state passing with exceptions *)

Definition M (A : Type) : Type := state -> result A * state.

Definition ret {A} (a : A) : M A := fun s => (Ok a, s).

Definition raise {A} (e : exn) : M A := fun s => (Raise e, s).

Definition bind {A B} (m : M A) (k : A -> M B) : M B :=
  fun s =>
    match m s with
    | (Ok a, s') => k a s'
    | (Raise e, s') => (Raise e, s')
    end.

Declare Scope py_scope.
Delimit Scope py_scope with py.
Notation "x <- m ;; k" := (bind m (fun x => k))
  (at level 100, m at next level, right associativity) : py_scope.
Notation "' p <- m ;; k" := (bind m (fun p => k))
  (at level 100, p pattern, m at next level, right associativity) : py_scope.
Notation "m ;; k" := (bind m (fun _ => k))
  (at level 100, right associativity) : py_scope.
#[local] Open Scope py_scope.

(** An [except] clause: which exceptions it matches, and its body. *)
Definition clause (A : Type) : Type := ((exn -> bool) * (exn -> M A))%type.

(** The clauses of a [try] are tried in order; the first that matches runs,
    and an exception that none matches goes on propagating. *)
Fixpoint dispatch {A} (clauses : list (clause A)) (e : exn) : M A :=
  match clauses with
  | [] => raise e
  | (matches, body) :: rest =>
      if matches e then body e else dispatch rest e
  end.

Definition try_except {A} (body : M A) (clauses : list (clause A)) : M A :=
  fun s =>
    match body s with
    | (Ok a, s') => (Ok a, s')
    | (Raise e, s') => dispatch clauses e s'
    end.

(** *** Reading and writing the attributes of [self] *)

Definition get_self : M mover := fun s => (Ok (self s), s).

Definition set_running (b : bool) : M unit := fun s =>
  (Ok tt,
   mkState (mkMover b (thread (self s)) (screen_width (self s))
              (screen_height (self s)) (avoid_regions (self s)))
           (env s)).

Definition set_thread (t : option nat) : M unit := fun s =>
  (Ok tt,
   mkState (mkMover (running (self s)) t (screen_width (self s))
              (screen_height (self s)) (avoid_regions (self s)))
           (env s)).

Definition set_screen_size (wh : Z * Z) : M unit := fun s =>
  (Ok tt,
   mkState (mkMover (running (self s)) (thread (self s)) (fst wh) (snd wh)
              (avoid_regions (self s)))
           (env s)).

Definition set_avoid_regions (l : list region) : M unit := fun s =>
  (Ok tt,
   mkState (mkMover (running (self s)) (thread (self s))
              (screen_width (self s)) (screen_height (self s)) l)
           (env s)).

(** *** Writing the world *)

Definition with_rng (l : list Z) (w : world) : world :=
  mkWorld l (gui w) (flag_cleared w) (join_delay w) (threads w) (current w)
          (waited w) (trace w).

Definition with_gui (l : list (option exn)) (w : world) : world :=
  mkWorld (rng w) l (flag_cleared w) (join_delay w) (threads w) (current w)
          (waited w) (trace w).

Definition with_flag_cleared (l : list bool) (w : world) : world :=
  mkWorld (rng w) (gui w) l (join_delay w) (threads w) (current w)
          (waited w) (trace w).

Definition with_join_delay (l : list (option N)) (w : world) : world :=
  mkWorld (rng w) (gui w) (flag_cleared w) l (threads w) (current w)
          (waited w) (trace w).

Definition with_threads (l : list thread_status) (w : world) : world :=
  mkWorld (rng w) (gui w) (flag_cleared w) (join_delay w) l (current w)
          (waited w) (trace w).

Definition with_waited (t : Z) (w : world) : world :=
  mkWorld (rng w) (gui w) (flag_cleared w) (join_delay w) (threads w)
          (current w) t (trace w).

Definition with_trace (l : list event) (w : world) : world :=
  mkWorld (rng w) (gui w) (flag_cleared w) (join_delay w) (threads w)
          (current w) (waited w) l.

Definition get_env : M world := fun s => (Ok (env s), s).

Definition modify_env (f : world -> world) : M unit := fun s =>
  (Ok tt, mkState (self s) (f (env s))).

Definition log (e : event) : M unit :=
  modify_env (fun w => with_trace (trace w ++ [e]) w).

Definition print (m : message) : M unit := log (Print m).

(* ================================================================== *)
(** ** The libraries the program calls *)

(** [random.randint(a, b)]: an integer of [a..b], both ends included;
    [ValueError] when the range is empty ([b < a]).  The value is the next
    raw draw reduced into the range (0 once the tape is used up). *)
Definition random_randint (a b : Z) : M Z :=
  log (Randint a b);;
  if b <? a then raise ValueError
  else
    w <- get_env;;
    match rng w with
    | [] => ret a
    | r :: rest =>
        modify_env (with_rng rest);;
        ret (a + r mod (b - a + 1))
    end.

(** A pyautogui call: recorded, then it returns or raises as the oracle says
    (the fail-safe check of pyautogui is one of the ways it raises). *)
Definition pyautogui_call (e : event) : M unit :=
  log e;;
  w <- get_env;;
  match gui w with
  | [] => ret tt
  | outcome :: rest =>
      modify_env (with_gui rest);;
      match outcome with
      | None => ret tt
      | Some err => raise err
      end
  end.

Definition pyautogui_moveTo (x y duration : Z) : M unit :=
  pyautogui_call (MoveTo x y duration).

Definition pyautogui_click : M unit := pyautogui_call Click.

(** [time.sleep]: while the thread sleeps, another thread may clear the
    shared flag [self.running]. *)
Definition time_sleep (ms : Z) : M unit :=
  log (Sleep ms);;
  modify_env (fun w => with_waited (waited w + ms) w);;
  w <- get_env;;
  match flag_cleared w with
  | [] => ret tt
  | cleared :: rest =>
      modify_env (with_flag_cleared rest);;
      if cleared then set_running false else ret tt
  end.

Definition status_of (t : nat) (w : world) : thread_status :=
  nth t (threads w) Created.

Fixpoint update_nth {A} (n : nat) (a : A) (l : list A) : list A :=
  match l, n with
  | [], _ => []
  | _ :: l', O => a :: l'
  | b :: l', S n' => b :: update_nth n' a l'
  end.

Definition set_status (t : nat) (st : thread_status) : M unit :=
  modify_env (fun w => with_threads (update_nth t st (threads w)) w).

(** [threading.Thread(target=..., daemon=True)]: a new thread object, not
    started yet. *)
Definition Thread : M nat :=
  w <- get_env;;
  modify_env (with_threads (threads w ++ [Created]));;
  ret (length (threads w)).

(** [Thread.start()] *)
Definition Thread_start (t : nat) : M unit :=
  w <- get_env;;
  match status_of t w with
  | Created => log (ThreadStart t);; set_status t Alive
  | Alive | Finished => raise RuntimeError
  end.

(** [Thread.is_alive()] *)
Definition Thread_is_alive (t : nat) : M bool :=
  w <- get_env;;
  ret (match status_of t w with Alive => true | _ => false end).

(** [Thread.join(timeout)]: refuses a thread that was not started and the
    calling thread itself; otherwise blocks until the thread exits or the
    timeout has passed, whichever is first, and returns [None] either way. *)
Definition Thread_join (t : nat) (timeout : Z) : M unit :=
  w <- get_env;;
  match status_of t w with
  | Created => raise RuntimeError
  | st =>
      if match current w with Some c => Nat.eqb c t | None => false end
      then raise RuntimeError
      else
        log (Join t timeout);;
        match st with
        | Alive =>
            match join_delay w with
            | [] => modify_env (fun w => with_waited (waited w + timeout) w)
            | d :: rest =>
                modify_env (with_join_delay rest);;
                match d with
                | Some ms =>
                    if Z.of_N ms <=? timeout
                    then modify_env
                           (fun w => with_waited (waited w + Z.of_N ms) w);;
                         set_status t Finished
                    else modify_env
                           (fun w => with_waited (waited w + timeout) w)
                | None =>
                    modify_env (fun w => with_waited (waited w + timeout) w)
                end
            end
        | _ => ret tt
        end
  end.

(* ================================================================== *)
(** ** class RandomMouseMover *)

Definition append_avoid_region (r : region) : M unit :=
  me <- get_self;;
  set_avoid_regions (avoid_regions me ++ [r]).

Fixpoint print_regions (l : list region) : M unit :=
  match l with
  | [] => ret tt
  | r :: rest => print (MsgRegion r);; print_regions rest
  end.

Definition _define_avoid_regions : M unit :=
  let button_width := 50 in
  let top_bar_height := 30 in
  me <- get_self;;
  append_avoid_region
    (screen_width me - 3 * button_width, 0, screen_width me, top_bar_height);;
  let taskbar_height := 40 in
  let start_menu_width := 100 in
  append_avoid_region
    (0, screen_height me - taskbar_height, start_menu_width, screen_height me);;
  append_avoid_region
    (0, screen_height me - taskbar_height, screen_width me, screen_height me);;
  print MsgDefinedRegions;;
  me <- get_self;;
  print_regions (avoid_regions me).

(** The [for] loop of [is_position_in_avoid_region]: the first region that
    holds the point returns [True]. *)
Fixpoint region_scan (regions : list region) (x y : Z) : bool :=
  match regions with
  | [] => false
  | (l, t, r, b) :: rest =>
      if (l <=? x) && (x <=? r) && ((t <=? y) && (y <=? b))
      then true
      else region_scan rest x y
  end.

Definition is_position_in_avoid_region (me : mover) (x y : Z) : bool :=
  region_scan (avoid_regions me) x y.

Definition get_primary_monitor_size (p : platform) : M (Z * Z) :=
  found <-
    (if WINDOWS_AVAILABLE p
     then try_except
            (match win32_monitor p with
             | inl e => raise e
             | inr (l, t, r, b) =>
                 ret (Some (r - l, b - t))
             end)
            [(is_Exception, fun e => print (MsgWin32Fallback e);; ret None)]
     else ret None);;
  match found with
  | Some wh => ret wh
  | None =>
      match pyautogui_size p with
      | inl e => raise e
      | inr wh => ret wh
      end
  end.

Definition get_random_position : M (Z * Z) :=
  let margin := 50 in
  me <- get_self;;
  x <- random_randint margin (screen_width me - margin);;
  y <- random_randint margin (screen_height me - margin);;
  ret (x, y).

Definition move_mouse_and_click : M unit :=
  try_except
    ('(x, y) <- get_random_position;;
     me <- get_self;;
     if is_position_in_avoid_region me x y
     then print (MsgSkipping x y)
     else
       pyautogui_moveTo x y 500;;
       pyautogui_click;;
       print (MsgMoved x y))
    [(is_Exception, fun e => print (MsgErrorMoving e))].

Definition stop : M unit :=
  set_running false;;
  me <- get_self;;
  match thread me with
  | Some t =>
      alive <- Thread_is_alive t;;
      if alive then Thread_join t 1000 else ret tt
  | None => ret tt
  end;;
  print MsgStopped.

Definition start : M unit :=
  me <- get_self;;
  if running me
  then print MsgAlreadyRunning
  else
    set_running true;;
    t <- Thread;;
    set_thread (Some t);;
    Thread_start t.

(** The inner [for _ in range(50)] of the loop: poll the flag, sleep 0.1 s. *)
Fixpoint sleep_poll (k : nat) : M unit :=
  match k with
  | O => ret tt
  | S k' =>
      me <- get_self;;
      if negb (running me) then ret tt
      else time_sleep 100;; sleep_poll k'
  end.

(** How one pass through the body of the [while] ends. *)
Inductive control : Type := Next | Break.

(** How the [while] stands when we stop looking at it: left (its condition
    was false, or a [break]), or still going after [fuel] cycles. *)
Inductive loop_status : Type := Exited | StillRunning.

Definition cycle : M control :=
  try_except
    (move_mouse_and_click;;
     sleep_poll 50;;
     ret Next)
    [(is_FailSafeException,
      fun _ => print MsgEmergencyStop;; stop;; ret Break);
     (is_KeyboardInterrupt,
      fun _ => print MsgKeyboardInterrupt;; stop;; ret Break);
     (is_Exception,
      fun e => print (MsgUnexpected e);; stop;; ret Break)].

Fixpoint while_running (fuel : nat) : M loop_status :=
  me <- get_self;;
  if negb (running me) then ret Exited
  else
    match fuel with
    | O => ret StillRunning
    | S fuel' =>
        c <- cycle;;
        match c with
        | Break => ret Exited
        | Next => while_running fuel'
        end
    end.

Definition mouse_mover_loop (fuel : nat) : M loop_status :=
  print MsgLoopStarted;;
  while_running fuel.

(** [pyautogui.FAILSAFE = True] has no counterpart here: that pyautogui
    checks the corner is what lets the [gui] oracle answer with a
    [FailSafeException]. *)
Definition __init__ (p : platform) : M unit :=
  set_running false;;
  set_thread None;;
  wh <- get_primary_monitor_size p;;
  set_screen_size wh;;
  print (MsgMonitorSize (fst wh) (snd wh));;
  set_avoid_regions [];;
  _define_avoid_regions.

(** [RandomMouseMover()]: a fresh object, then [__init__] on it. *)
Definition RandomMouseMover (p : platform) (w : world) : result unit * state :=
  __init__ p (mkState (mkMover false None 0 0 []) w).

(* ================================================================== *)
(** ** Vocabulary of the statements *)

(** The value [random_randint a b] delivers on a given tape. *)
Definition drawn (a b : Z) (tape : list Z) : Z :=
  match tape with
  | [] => a
  | r :: _ => a + r mod (b - a + 1)
  end.

(** The state [get_random_position] leaves behind when both draws succeed. *)
Definition after_draws (s : state) : state :=
  mkState (self s)
    (with_rng (tl (tl (rng (env s))))
       (with_trace
          (trace (env s) ++
             [Randint 50 (screen_width (self s) - 50);
              Randint 50 (screen_height (self s) - 50)])
          (env s))).

(** A world in which nothing has happened yet and nothing goes wrong, seen
    from the main thread. *)
Definition quiet_world : world := mkWorld [] [] [] [] [] None 0 [].

(** A machine without pywin32 whose screen is 1920 x 1080. *)
Definition full_hd : platform :=
  mkPlatform false (inl RuntimeError) (inr (1920, 1080)).

(** The state right after [mover = RandomMouseMover()] on that machine. *)
Definition fresh_full_hd : state := snd (RandomMouseMover full_hd quiet_world).

(** A screen of exactly twice the margin in both directions. *)
Definition square_100 : state :=
  mkState (mkMover false None 100 100 []) quiet_world.

(** What [__init__] does for the regions: empty the list, then fill it. *)
Definition build_regions : M unit :=
  set_avoid_regions [];; _define_avoid_regions.

(** The point lies in the closed rectangle. *)
Definition inside (x y : Z) (reg : region) : Prop :=
  let '(l, t, r, b) := reg in l <= x <= r /\ t <= y <= b.

(** A mover with a 1920 x 1080 screen whose regions are not built yet. *)
Definition bare_full_hd : state :=
  mkState (mkMover false None 1920 1080 []) quiet_world.

(** What a wait of [n] sub-intervals may change: the trace grows by [n]
    sleeps, the time waited by [n] tenths of a second, the oracle of the
    sleeps is consumed and the flag may have been cleared, never set. *)
Record slept (n : nat) (s s' : state) : Prop := mkSlept {
  slept_trace : trace (env s') = trace (env s) ++ repeat (Sleep 100) n;
  slept_waited : waited (env s') = waited (env s) + 100 * Z.of_nat n;
  slept_gui : gui (env s') = gui (env s);
  slept_rng : rng (env s') = rng (env s);
  slept_threads : threads (env s') = threads (env s);
  slept_current : current (env s') = current (env s);
  slept_thread : thread (self s') = thread (self s);
  slept_width : screen_width (self s') = screen_width (self s);
  slept_height : screen_height (self s') = screen_height (self s);
  slept_regions : avoid_regions (self s') = avoid_regions (self s);
  slept_running : running (self s') = true -> running (self s) = true
}.

(** The state [move_mouse_and_click] leaves when a pyautogui call raised an
    [Exception]: the calls made so far and the error line are in the trace,
    the outcomes used are gone from the oracle, the object is untouched. *)
Definition after_error (calls : list event) (e : exn)
    (rest : list (option exn)) (s1 : state) : state :=
  mkState (self s1)
    (with_gui rest
       (with_trace (trace (env s1) ++ calls ++ [Print (MsgErrorMoving e)])
          (env s1))).

(** A mover whose region list was replaced by one rectangle covering the
    whole 1920 x 1080 screen; the generator will deliver (960, 540). *)
Definition all_avoided : state :=
  mkState (mkMover true (Some 0%nat) 1920 1080 [(0, 0, 1920, 1080)])
          (mkWorld [910; 490] [] [] [] [Alive] (Some 0%nat) 0 []).

(** The loop thread of a mover started on the 1920 x 1080 screen, seen from
    inside that thread, with the given generator tape and pyautogui outcomes
    ahead; nobody calls [stop()]. *)
Definition in_loop_thread (tape : list Z) (outcomes : list (option exn))
  : state :=
  let s := snd (start fresh_full_hd) in
  mkState (self s)
    (mkWorld tape outcomes [] [] (threads (env s)) (thread (self s)) 0 []).

(** The state after the "already running" line. *)
Definition told_running (s : state) : state :=
  mkState (self s)
    (with_trace (trace (env s) ++ [Print MsgAlreadyRunning]) (env s)).

(** The state after a start that spawned the loop thread. *)
Definition spawned (s : state) : state :=
  let t := length (threads (env s)) in
  mkState
    (mkMover true (Some t) (screen_width (self s)) (screen_height (self s))
       (avoid_regions (self s)))
    (with_trace (trace (env s) ++ [ThreadStart t])
       (with_threads (threads (env s) ++ [Alive]) (env s))).

(** [k] calls of [start()] in a row. *)
Fixpoint starts (k : nat) : M unit :=
  match k with
  | O => ret tt
  | S k' => start;; starts k'
  end.

(** The threads of the table that are started and not finished. *)
Definition alive_count (l : list thread_status) : nat :=
  length (filter (fun st => match st with Alive => true | _ => false end) l).

(** The status in which [stop()] leaves a live thread it joined from another
    thread, by what the thread still needed to exit. *)
Definition status_after_join (delays : list (option N)) : thread_status :=
  match delays with
  | Some ms :: _ => if Z.of_N ms <=? 1000 then Finished else Alive
  | _ => Alive
  end.

(** The thread needs three seconds to exit: [stop()] gives up after one. *)
Definition slow_thread : state :=
  mkState (self fresh_full_hd)
    (with_join_delay [Some 3000%N] (env fresh_full_hd)).

(** The point respects the margin of 50 pixels on every side. *)
Definition within_margins (me : mover) (x y : Z) : Prop :=
  50 <= x <= screen_width me - 50 /\ 50 <= y <= screen_height me - 50.

(** What the loop thread may do to the outside, for a mover [me]: move the
    pointer only to a point within the margins and outside the regions, in
    half a second; report a skip only for a point in a region; start no
    thread. *)
Definition event_ok (me : mover) (e : event) : Prop :=
  match e with
  | MoveTo x y d =>
      within_margins me x y /\ d = 500 /\
      is_position_in_avoid_region me x y = false
  | Print (MsgSkipping x y) =>
      within_margins me x y /\ is_position_in_avoid_region me x y = true
  | ThreadStart _ => False
  | _ => True
  end.

(** What a computation of the loop thread keeps of the state it starts in:
    it only adds allowed events, leaves the screen size, the regions,
    [self.thread] and the executing thread alone, and may clear [running]
    but not set it. *)
Record kept (s s' : state) : Prop := mkKept {
  kept_trace : exists evs,
      trace (env s') = trace (env s) ++ evs /\ Forall (event_ok (self s)) evs;
  kept_width : screen_width (self s') = screen_width (self s);
  kept_height : screen_height (self s') = screen_height (self s);
  kept_regions : avoid_regions (self s') = avoid_regions (self s);
  kept_thread : thread (self s') = thread (self s);
  kept_current : current (env s') = current (env s);
  kept_running : running (self s') = true -> running (self s) = true
}.

Definition keeps {A} (m : M A) : Prop :=
  forall s r s', m s = (r, s') -> kept s s'.

(** The events a computation adds to the trace of the state it starts in. *)
Definition issued {A} (m : M A) (s : state) : list event :=
  skipn (length (trace (env s))) (trace (env (snd (m s)))).

(** The region list is the one the builder makes for the screen size. *)
Definition regions_built (me : mover) : Prop :=
  avoid_regions me =
  [(screen_width me - 150, 0, screen_width me, 30);
   (0, screen_height me - 40, 100, screen_height me);
   (0, screen_height me - 40, screen_width me, screen_height me)].

(** What [move_mouse_and_click] does with its candidate. *)
Definition use_candidate (x y : Z) : M unit :=
  me <- get_self;;
  if is_position_in_avoid_region me x y
  then print (MsgSkipping x y)
  else
    pyautogui_moveTo x y 500;;
    pyautogui_click;;
    print (MsgMoved x y).

(** [get_primary_monitor_size] gets as far as [pyautogui.size()]: pywin32
    is missing, or its call raised an [Exception]. *)
Definition falls_back (p : platform) : bool :=
  if WINDOWS_AVAILABLE p
  then match win32_monitor p with
       | inl e => is_Exception e
       | inr _ => false
       end
  else true.

(** The size [get_primary_monitor_size] settles on, if it returns: the
    primary monitor's, or what [pyautogui.size()] returned once it fell
    back to it. *)
Definition resolved_size (p : platform) : option (Z * Z) :=
  if falls_back p
  then match pyautogui_size p with
       | inr wh => Some wh
       | inl _ => None
       end
  else match win32_monitor p with
       | inr (l, t, r, b) => Some (r - l, b - t)
       | inl _ => None
       end.

(** A machine with pywin32 whose primary monitor is the left one of two. *)
Definition two_monitors : platform :=
  mkPlatform true (inr (0, 0, 2560, 1440)) (inr (4480, 1440)).

(** A screen too narrow for the margins. *)
Definition narrow_screen : state :=
  mkState (mkMover true None 99 1080 []) quiet_world.

(** The loop thread at the start of its wait, when the main thread will call
    [stop()] during the third sub-interval. *)
Definition stop_during_third_sleep : state :=
  mkState (self (in_loop_thread [] []))
    (with_flag_cleared [false; false; true] (env (in_loop_thread [] []))).

(* ================================================================== *)
(** * Properties *)

(** Unfolds the monad so that a computation applied to a state reduces. *)
Ltac run :=
  cbv beta delta
    [bind ret raise try_except dispatch get_self get_env modify_env log print
     set_running set_thread set_screen_size set_avoid_regions
     with_rng with_gui with_flag_cleared with_join_delay with_threads
     with_waited with_trace] in *;
  cbn [self env fst snd running thread screen_width screen_height
       avoid_regions rng gui flag_cleared join_delay threads current waited
       trace] in *.

(** ** The random generator *)

Section Randint.

Variables a b : Z.
Hypothesis range_ok : a <= b.

Lemma drawn_range tape : a <= drawn a b tape <= b.
Proof.
  destruct tape as [|r rest]; cbn [drawn]; [lia|].
  assert (0 <= r mod (b - a + 1) < b - a + 1) by (apply Z.mod_pos_bound; lia).
  lia.
Qed.

Lemma drawn_onto v rest : a <= v <= b -> drawn a b (v - a :: rest) = v.
Proof.
  intros Hv; cbn [drawn].
  rewrite Z.mod_small by lia. lia.
Qed.

Lemma random_randint_ok s :
  random_randint a b s =
  (Ok (drawn a b (rng (env s))),
   mkState (self s)
     (with_rng (tl (rng (env s)))
        (with_trace (trace (env s) ++ [Randint a b]) (env s)))).
Proof.
  unfold random_randint. run.
  destruct (b <? a) eqn:E; [apply Z.ltb_lt in E; lia|].
  destruct (rng (env s)) as [|r rest]; reflexivity.
Qed.

End Randint.

Lemma random_randint_empty a b s :
  b < a ->
  random_randint a b s =
  (Raise ValueError,
   mkState (self s) (with_trace (trace (env s) ++ [Randint a b]) (env s))).
Proof.
  intros H. unfold random_randint. run.
  apply Z.ltb_lt in H. rewrite H. reflexivity.
Qed.

(** ** The candidate generator *)

Lemma get_random_position_ok s :
  100 <= screen_width (self s) ->
  100 <= screen_height (self s) ->
  get_random_position s =
  (Ok (drawn 50 (screen_width (self s) - 50) (rng (env s)),
       drawn 50 (screen_height (self s) - 50) (tl (rng (env s)))),
   after_draws s).
Proof.
  intros Hw Hh. unfold get_random_position, after_draws.
  unfold bind at 1, get_self. cbn [self].
  unfold bind at 1. rewrite random_randint_ok by lia.
  unfold bind at 1. rewrite random_randint_ok by lia.
  run. rewrite <- app_assoc. reflexivity.
Qed.

Lemma get_random_position_raises s :
  screen_width (self s) < 100 \/ screen_height (self s) < 100 ->
  exists s', get_random_position s = (Raise ValueError, s').
Proof.
  intros Hdim. unfold get_random_position.
  unfold bind at 1, get_self. cbn [self].
  destruct (Z_lt_le_dec (screen_width (self s)) 100) as [Hw|Hw].
  - unfold bind at 1. rewrite random_randint_empty by lia. eauto.
  - unfold bind at 1. rewrite random_randint_ok by lia.
    unfold bind at 1. rewrite random_randint_empty by (cbn [self]; lia).
    eauto.
Qed.

(** A successful call had room for the margins and left [after_draws]. *)
Lemma get_random_position_inv s x y s1 :
  get_random_position s = (Ok (x, y), s1) ->
  s1 = after_draws s /\
  100 <= screen_width (self s) /\ 100 <= screen_height (self s).
Proof.
  intros H.
  destruct (Z_lt_le_dec (screen_width (self s)) 100) as [Hw|Hw];
    [destruct (get_random_position_raises s) as [s' E]; [lia|congruence]|].
  destruct (Z_lt_le_dec (screen_height (self s)) 100) as [Hh|Hh];
    [destruct (get_random_position_raises s) as [s' E]; [lia|congruence]|].
  rewrite get_random_position_ok in H by lia.
  injection H as _ _ <-. auto.
Qed.

(** C1: on a screen wider and higher than 100 pixels [get_random_position]
    returns a point, and every point it returns has both coordinates between
    the margin 50 and the dimension minus 50, ends included; each integer
    point of that box is returned for some state of the random generator. *)
Theorem get_random_position_within_margins (s : state) :
  100 < screen_width (self s) ->
  100 < screen_height (self s) ->
  (exists x y s',
      get_random_position s = (Ok (x, y), s') /\
      50 <= x <= screen_width (self s) - 50 /\
      50 <= y <= screen_height (self s) - 50) /\
  (forall x y,
      50 <= x <= screen_width (self s) - 50 ->
      50 <= y <= screen_height (self s) - 50 ->
      exists tape,
        fst (get_random_position (mkState (self s) (with_rng tape (env s))))
        = Ok (x, y)).
Proof.
  intros Hw Hh. split.
  - eexists _, _, _. split; [apply get_random_position_ok; lia|].
    split; apply drawn_range; lia.
  - intros x y Hx Hy. exists [x - 50; y - 50].
    rewrite get_random_position_ok by (cbn [self]; lia).
    cbn [fst self env with_rng rng tl].
    rewrite !drawn_onto by lia. reflexivity.
Qed.

Lemma get_random_position_within_margins_witness :
  100 < screen_width (self fresh_full_hd) /\
  100 < screen_height (self fresh_full_hd) /\
  (exists x y s',
      get_random_position fresh_full_hd = (Ok (x, y), s') /\
      50 <= x <= screen_width (self fresh_full_hd) - 50 /\
      50 <= y <= screen_height (self fresh_full_hd) - 50).
Proof.
  split; [vm_compute; reflexivity|].
  split; [vm_compute; reflexivity|].
  apply (get_random_position_within_margins fresh_full_hd);
    vm_compute; reflexivity.
Defined.

(** C9, the claim as stated fails: at dimension 100 = 2 * margin the range
    is the single point 50 and the call succeeds. *)
Lemma get_random_position_at_twice_margin :
  50 * 2 >= screen_width (self square_100) /\
  50 * 2 >= screen_height (self square_100) /\
  fst (get_random_position square_100) = Ok (50, 50).
Proof. repeat split; vm_compute; congruence. Qed.

(** C9, amended: [get_random_position] raises [ValueError] (the empty range
    of [random.randint], which the method does not guard) exactly when a
    dimension is below 2 * margin = 100, and returns a point within the
    margins exactly when both dimensions are at least 100. *)
Theorem get_random_position_defined_iff (s : state) :
  ((screen_width (self s) < 100 \/ screen_height (self s) < 100) <->
   exists s', get_random_position s = (Raise ValueError, s')) /\
  ((100 <= screen_width (self s) /\ 100 <= screen_height (self s)) <->
   exists x y s',
     get_random_position s = (Ok (x, y), s') /\
     50 <= x <= screen_width (self s) - 50 /\
     50 <= y <= screen_height (self s) - 50).
Proof.
  pose proof (get_random_position_raises s) as Hbad.
  assert (Hgood : 100 <= screen_width (self s) /\ 100 <= screen_height (self s) ->
                  exists x y s',
                    get_random_position s = (Ok (x, y), s') /\
                    50 <= x <= screen_width (self s) - 50 /\
                    50 <= y <= screen_height (self s) - 50).
  { intros [Hw Hh]. eexists _, _, _.
    split; [apply get_random_position_ok; lia|].
    split; apply drawn_range; lia. }
  split; (split; [assumption|]).
  - intros [s' Hs'].
    destruct (Z_lt_le_dec (screen_width (self s)) 100); [lia|].
    destruct (Z_lt_le_dec (screen_height (self s)) 100); [lia|].
    destruct Hgood as (x & y & s'' & Hok & _); [lia|]. congruence.
  - intros (x & y & s' & Hok & _).
    destruct (Z_lt_le_dec (screen_width (self s)) 100) as [Hw|Hw];
      [destruct Hbad as [s'' Hs'']; [lia|congruence]|].
    destruct (Z_lt_le_dec (screen_height (self s)) 100) as [Hh|Hh];
      [destruct Hbad as [s'' Hs'']; [lia|congruence]|].
    lia.
Qed.

(** ** The avoidance regions *)

Lemma print_regions_ok (l : list region) : forall s,
  print_regions l s =
  (Ok tt,
   mkState (self s)
     (with_trace (trace (env s) ++ map (fun r => Print (MsgRegion r)) l)
        (env s))).
Proof.
  induction l as [|r l IH]; intros [me w].
  - destruct w. cbn. run. rewrite app_nil_r. reflexivity.
  - cbn [print_regions]. unfold bind at 1, print, log, modify_env.
    rewrite IH. run. cbn [map]. rewrite <- app_assoc. reflexivity.
Qed.

Lemma _define_avoid_regions_appends (s : state) :
  exists s',
    _define_avoid_regions s = (Ok tt, s') /\
    avoid_regions (self s') =
      avoid_regions (self s) ++
      [(screen_width (self s) - 150, 0, screen_width (self s), 30);
       (0, screen_height (self s) - 40, 100, screen_height (self s));
       (0, screen_height (self s) - 40, screen_width (self s),
        screen_height (self s))] /\
    screen_width (self s') = screen_width (self s) /\
    screen_height (self s') = screen_height (self s) /\
    running (self s') = running (self s) /\
    thread (self s') = thread (self s).
Proof.
  unfold _define_avoid_regions, append_avoid_region. run.
  rewrite print_regions_ok. run.
  eexists. split; [reflexivity|]. cbn [self avoid_regions screen_width
    screen_height running thread].
  rewrite <- !app_assoc. cbn [app]. repeat split; reflexivity.
Qed.

Lemma build_regions_ok (s : state) :
  exists s',
    build_regions s = (Ok tt, s') /\
    avoid_regions (self s') =
      [(screen_width (self s) - 150, 0, screen_width (self s), 30);
       (0, screen_height (self s) - 40, 100, screen_height (self s));
       (0, screen_height (self s) - 40, screen_width (self s),
        screen_height (self s))] /\
    screen_width (self s') = screen_width (self s) /\
    screen_height (self s') = screen_height (self s).
Proof.
  unfold build_regions, bind at 1, set_avoid_regions.
  match goal with |- context [_define_avoid_regions ?t] =>
    destruct (_define_avoid_regions_appends t) as (s' & E & R & W & H & _)
  end.
  exists s'. cbn [self avoid_regions screen_width screen_height app] in *.
  auto.
Qed.

(** C4: the region builder yields, in this order, the top-right rectangle
    (width - 150, 0, width, 30), the bottom-left rectangle
    (0, height - 40, 100, height) and the taskbar rectangle
    (0, height - 40, width, height): appended to the list by
    [_define_avoid_regions], hence the whole list after [__init__] emptied it;
    the rectangles depend on the screen size alone.  On 1920 x 1080 they are
    (1770, 0, 1920, 30), (0, 1040, 100, 1080) and (0, 1040, 1920, 1080). *)
Theorem avoid_regions_fixed_by_bounds :
  (forall s, exists s',
      _define_avoid_regions s = (Ok tt, s') /\
      avoid_regions (self s') =
        avoid_regions (self s) ++
        [(screen_width (self s) - 150, 0, screen_width (self s), 30);
         (0, screen_height (self s) - 40, 100, screen_height (self s));
         (0, screen_height (self s) - 40, screen_width (self s),
          screen_height (self s))]) /\
  (forall s, exists s',
      build_regions s = (Ok tt, s') /\
      avoid_regions (self s') =
        [(screen_width (self s) - 150, 0, screen_width (self s), 30);
         (0, screen_height (self s) - 40, 100, screen_height (self s));
         (0, screen_height (self s) - 40, screen_width (self s),
          screen_height (self s))]) /\
  (forall w q, exists s',
      RandomMouseMover (mkPlatform false q (inr (1920, 1080))) w
      = (Ok tt, s') /\
      avoid_regions (self s') =
        [(1770, 0, 1920, 30); (0, 1040, 100, 1080); (0, 1040, 1920, 1080)]).
Proof.
  split; [|split].
  - intros s. destruct (_define_avoid_regions_appends s) as (s' & E & R & _).
    eauto.
  - intros s. destruct (build_regions_ok s) as (s' & E & R & _). eauto.
  - intros w q.
    exists (snd (RandomMouseMover (mkPlatform false q (inr (1920, 1080))) w)).
    split; vm_compute; reflexivity.
Qed.

(** ** The point classifier *)

Lemma inside_test x y l t r b :
  (l <=? x) && (x <=? r) && ((t <=? y) && (y <=? b)) = true <->
  inside x y (l, t, r, b).
Proof.
  unfold inside.
  rewrite !andb_true_iff, !Z.leb_le. tauto.
Qed.

Lemma region_scan_true (regions : list region) (x y : Z) :
  region_scan regions x y = true <-> exists reg, In reg regions /\ inside x y reg.
Proof.
  induction regions as [|[[[l t] r] b] rest IH]; cbn [region_scan In].
  - split; [discriminate | intros (reg & [] & _)].
  - destruct ((l <=? x) && (x <=? r) && ((t <=? y) && (y <=? b))) eqn:E.
    + split; [intros _|reflexivity].
      exists (l, t, r, b). split; [now left | now apply inside_test].
    + rewrite IH. split.
      * intros (reg & Hin & Hreg). exists reg. auto.
      * intros (reg & [<-|Hin] & Hreg).
        -- apply inside_test in Hreg. congruence.
        -- exists reg. auto.
Qed.

(** C5: [is_position_in_avoid_region] answers [True] exactly when the point
    lies in one of the regions of the list, the four edges of a region
    included (so every corner of a region with left <= right and
    top <= bottom is inside); with the regions of a 1920 x 1080 screen,
    (1800, 15) is avoided and (960, 540) is not. *)
Theorem is_position_in_avoid_region_inclusive :
  (forall me x y,
      is_position_in_avoid_region me x y = true <->
      exists l t r b,
        In (l, t, r, b) (avoid_regions me) /\
        l <= x <= r /\ t <= y <= b) /\
  (forall me l t r b x y,
      In (l, t, r, b) (avoid_regions me) ->
      (x = l \/ x = r) /\ t <= y <= b /\ l <= r \/
      (y = t \/ y = b) /\ l <= x <= r /\ t <= b ->
      is_position_in_avoid_region me x y = true) /\
  is_position_in_avoid_region (self fresh_full_hd) 1800 15 = true /\
  is_position_in_avoid_region (self fresh_full_hd) 960 540 = false.
Proof.
  assert (Hiff : forall me x y,
             is_position_in_avoid_region me x y = true <->
             exists l t r b,
               In (l, t, r, b) (avoid_regions me) /\
               l <= x <= r /\ t <= y <= b).
  { intros me x y. unfold is_position_in_avoid_region.
    rewrite region_scan_true. split.
    - intros ([[[l t] r] b] & Hin & Hreg). exists l, t, r, b. auto.
    - intros (l & t & r & b & Hin & Hreg). exists (l, t, r, b). auto. }
  split; [exact Hiff|]. split; [|split; reflexivity].
  intros me l t r b x y Hin Hedge. apply Hiff.
  exists l, t, r, b. split; [assumption|lia].
Qed.

(** C10: on a screen at least 100 wide the builder makes, as second and
    third region, the bottom-left rectangle (0, height - 40, 100, height) and
    the taskbar rectangle (0, height - 40, width, height); every point of the
    former lies in the latter and is classified as avoided, and on every
    point the classifier answers for the mover as it does for the same mover
    with the second region left out of the list. *)
Theorem bottom_left_region_redundant (s : state) (x y : Z) :
  100 <= screen_width (self s) ->
  exists s',
    build_regions s = (Ok tt, s') /\
    avoid_regions (self s') =
      [(screen_width (self s) - 150, 0, screen_width (self s), 30);
       (0, screen_height (self s) - 40, 100, screen_height (self s));
       (0, screen_height (self s) - 40, screen_width (self s),
        screen_height (self s))] /\
    (inside x y (0, screen_height (self s) - 40, 100, screen_height (self s))
     -> inside x y (0, screen_height (self s) - 40, screen_width (self s),
                    screen_height (self s))) /\
    (inside x y (0, screen_height (self s) - 40, 100, screen_height (self s))
     -> is_position_in_avoid_region (self s') x y = true) /\
    is_position_in_avoid_region (self s') x y =
    is_position_in_avoid_region
      (mkMover (running (self s')) (thread (self s'))
         (screen_width (self s')) (screen_height (self s'))
         [(screen_width (self s) - 150, 0, screen_width (self s), 30);
          (0, screen_height (self s) - 40, screen_width (self s),
           screen_height (self s))])
      x y.
Proof.
  intros Hw.
  destruct (build_regions_ok s) as (s' & E & R & _).
  exists s'. split; [exact E|]. split; [exact R|].
  unfold is_position_in_avoid_region, inside. cbn [avoid_regions].
  rewrite R. cbn [region_scan].
  repeat match goal with
  | |- context [?a <=? ?b] => destruct (Z.leb_spec a b)
  end; cbn [andb]; repeat split; intros; try reflexivity; lia.
Qed.

Lemma bottom_left_region_redundant_witness :
  100 <= screen_width (self bare_full_hd) /\
  exists s',
    build_regions bare_full_hd = (Ok tt, s') /\
    avoid_regions (self s') =
      [(1770, 0, 1920, 30); (0, 1040, 100, 1080); (0, 1040, 1920, 1080)] /\
    inside 50 1050 (0, 1040, 100, 1080) /\
    inside 50 1050 (0, 1040, 1920, 1080) /\
    is_position_in_avoid_region (self s') 50 1050 = true /\
    is_position_in_avoid_region
      (mkMover (running (self s')) (thread (self s'))
         (screen_width (self s')) (screen_height (self s'))
         [(1770, 0, 1920, 30); (0, 1040, 1920, 1080)])
      50 1050 = true.
Proof.
  assert (Hw : 100 <= screen_width (self bare_full_hd))
    by (vm_compute; congruence).
  assert (Hin : inside 50 1050 (0, 1040, 100, 1080))
    by (cbn [inside]; lia).
  split; [exact Hw|].
  destruct (bottom_left_region_redundant bare_full_hd 50 1050 Hw)
    as (s' & E & R & Hsub & Hav & Heq).
  exists s'. split; [exact E|]. split; [exact R|]. split; [exact Hin|].
  split; [exact (Hsub Hin)|]. split; [exact (Hav Hin)|].
  rewrite <- (Hav Hin). symmetry. exact Heq.
Defined.

(** ** One cycle of the loop *)

Lemma slept_refl s : slept 0 s s.
Proof.
  constructor; cbn [repeat]; auto using app_nil_r; lia.
Qed.

Lemma slept_trans n m s1 s2 s3 :
  slept n s1 s2 -> slept m s2 s3 -> slept (n + m) s1 s3.
Proof.
  intros [] []. constructor; try congruence; auto.
  - rewrite repeat_app, app_assoc. congruence.
  - lia.
Qed.

Lemma time_sleep_slept s :
  exists s', time_sleep 100 s = (Ok tt, s') /\ slept 1 s s'.
Proof.
  unfold time_sleep. run.
  destruct (flag_cleared (env s)) as [|[|] rest];
    (eexists; split; [reflexivity|]);
    constructor; run; auto; discriminate.
Qed.

Lemma sleep_poll_slept (k : nat) : forall s,
  exists n s', (n <= k)%nat /\ sleep_poll k s = (Ok tt, s') /\ slept n s s'.
Proof.
  induction k as [|k IH]; intros s; cbn [sleep_poll].
  - exists 0%nat, s. auto using slept_refl.
  - unfold bind at 1, get_self.
    destruct (running (self s)); cbn [negb].
    + destruct (time_sleep_slept s) as (s1 & E1 & S1).
      destruct (IH s1) as (n & s2 & Hn & E2 & S2).
      exists (S n), s2. unfold bind. rewrite E1, E2.
      split; [lia|]. split; [reflexivity|].
      exact (slept_trans 1 n _ _ _ S1 S2).
    + exists 0%nat, s. split; [lia|]. auto using slept_refl.
Qed.

Lemma pyautogui_call_raises ev e rest s :
  gui (env s) = Some e :: rest ->
  pyautogui_call ev s =
  (Raise e,
   mkState (self s)
     (with_gui rest (with_trace (trace (env s) ++ [ev]) (env s)))).
Proof.
  intros H. unfold pyautogui_call. run. rewrite H. reflexivity.
Qed.

Lemma pyautogui_call_returns ev rest s :
  gui (env s) = None :: rest ->
  pyautogui_call ev s =
  (Ok tt,
   mkState (self s)
     (with_gui rest (with_trace (trace (env s) ++ [ev]) (env s)))).
Proof.
  intros H. unfold pyautogui_call. run. rewrite H. reflexivity.
Qed.

Lemma move_mouse_and_click_moveTo_raises s x y s1 e rest :
  get_random_position s = (Ok (x, y), s1) ->
  is_position_in_avoid_region (self s1) x y = false ->
  gui (env s1) = Some e :: rest ->
  is_Exception e = true ->
  move_mouse_and_click s =
  (Ok tt, after_error [MoveTo x y 500] e rest s1).
Proof.
  intros Hpos Hfree Hgui He.
  unfold move_mouse_and_click, try_except.
  unfold bind at 1. rewrite Hpos.
  unfold bind at 1, get_self. rewrite Hfree.
  unfold bind at 1, pyautogui_moveTo.
  rewrite (pyautogui_call_raises _ e rest) by assumption.
  cbn [dispatch]. rewrite He. unfold after_error. run.
  rewrite <- app_assoc. reflexivity.
Qed.

Lemma move_mouse_and_click_click_raises s x y s1 e rest :
  get_random_position s = (Ok (x, y), s1) ->
  is_position_in_avoid_region (self s1) x y = false ->
  gui (env s1) = None :: Some e :: rest ->
  is_Exception e = true ->
  move_mouse_and_click s =
  (Ok tt, after_error [MoveTo x y 500; Click] e rest s1).
Proof.
  intros Hpos Hfree Hgui He.
  unfold move_mouse_and_click, try_except.
  unfold bind at 1. rewrite Hpos.
  unfold bind at 1, get_self. rewrite Hfree.
  unfold bind at 1, pyautogui_moveTo.
  rewrite (pyautogui_call_returns _ (Some e :: rest)) by assumption.
  unfold bind at 1, pyautogui_click.
  rewrite (pyautogui_call_raises _ e rest) by reflexivity.
  cbn [dispatch]. rewrite He. unfold after_error. run.
  rewrite <- !app_assoc. reflexivity.
Qed.

(** A [try] with the single clause [except Exception] lets out only what
    is not an [Exception], or what its own handler raises. *)
Lemma try_except_one_clause {A} (body : M A) (h : exn -> M A) s e s' :
  try_except body [(is_Exception, h)] s = (Raise e, s') ->
  is_Exception e = false \/
  exists e0 s0, body s = (Raise e0, s0) /\ h e0 s0 = (Raise e, s').
Proof.
  unfold try_except. destruct (body s) as [[a|e0] s0]; [discriminate|].
  cbn [dispatch]. destruct (is_Exception e0) eqn:E.
  - intros H. right. eauto.
  - unfold raise. intros H. injection H as <- <-. auto.
Qed.

Lemma move_mouse_and_click_lets_no_Exception_out s e s' :
  move_mouse_and_click s = (Raise e, s') -> is_Exception e = false.
Proof.
  intros H. apply try_except_one_clause in H.
  destruct H as [H|(e0 & s0 & _ & H)]; [exact H|discriminate].
Qed.

(** A cycle whose [move_mouse_and_click] returned goes on to the wait. *)
Lemma cycle_after_return s s2 :
  move_mouse_and_click s = (Ok tt, s2) ->
  cycle s = (Ok Next, snd (sleep_poll 50 s2)).
Proof.
  intros H. unfold cycle, try_except.
  unfold bind at 1. rewrite H.
  destruct (sleep_poll_slept 50 s2) as (n & s3 & _ & E & _).
  unfold bind. rewrite E. reflexivity.
Qed.

Lemma while_running_after_return n s s2 :
  running (self s) = true ->
  move_mouse_and_click s = (Ok tt, s2) ->
  while_running (S n) s = (sleep_poll 50;; while_running n) s2.
Proof.
  intros Hrun H. cbn [while_running].
  unfold bind at 1, get_self. rewrite Hrun. cbn [negb].
  unfold bind at 1. rewrite (cycle_after_return s s2 H).
  destruct (sleep_poll_slept 50 s2) as (k & s3 & _ & E & _).
  unfold bind at 1. rewrite E. reflexivity.
Qed.

(** C6: when the candidate point of a cycle is classified as avoided,
    [move_mouse_and_click] returns after the "skipping" line: the trace gains
    the two random draws of the one candidate and that line, nothing else
    (no second candidate, no [moveTo], no [click]), pyautogui is not
    called, and the rest of the cycle is the wait alone. *)
Theorem avoided_candidate_skips_cycle (s s1 : state) (x y : Z) :
  get_random_position s = (Ok (x, y), s1) ->
  is_position_in_avoid_region (self s1) x y = true ->
  exists s2 n s3,
    move_mouse_and_click s = (Ok tt, s2) /\
    trace (env s2) =
      trace (env s) ++
      [Randint 50 (screen_width (self s) - 50);
       Randint 50 (screen_height (self s) - 50);
       Print (MsgSkipping x y)] /\
    rng (env s2) = tl (tl (rng (env s))) /\
    gui (env s2) = gui (env s) /\
    self s2 = self s /\
    cycle s = (Ok Next, s3) /\
    (n <= 50)%nat /\
    trace (env s3) = trace (env s2) ++ repeat (Sleep 100) n /\
    gui (env s3) = gui (env s).
Proof.
  intros Hpos Havoid.
  destruct (get_random_position_inv _ _ _ _ Hpos) as (-> & Hw & Hh).
  set (s2 := mkState (self s)
               (with_trace
                  (trace (env (after_draws s)) ++ [Print (MsgSkipping x y)])
                  (env (after_draws s)))).
  assert (E : move_mouse_and_click s = (Ok tt, s2)).
  { unfold move_mouse_and_click, try_except.
    unfold bind at 1. rewrite Hpos.
    unfold bind at 1, get_self. rewrite Havoid. reflexivity. }
  destruct (sleep_poll_slept 50 s2) as (n & s3 & Hn & E3 & S3).
  exists s2, n, s3. split; [exact E|].
  split; [subst s2; unfold after_draws; run; rewrite <- app_assoc;
          reflexivity|].
  split; [reflexivity|]. split; [reflexivity|]. split; [reflexivity|].
  split; [rewrite (cycle_after_return s s2 E), E3; reflexivity|].
  split; [exact Hn|].
  split; [apply S3|]. rewrite (slept_gui _ _ _ S3). reflexivity.
Qed.

Lemma avoided_candidate_skips_cycle_witness :
  get_random_position all_avoided = (Ok (960, 540), after_draws all_avoided) /\
  is_position_in_avoid_region (self (after_draws all_avoided)) 960 540 = true /\
  exists s2 n s3,
    move_mouse_and_click all_avoided = (Ok tt, s2) /\
    trace (env s2) =
      trace (env all_avoided) ++
      [Randint 50 (screen_width (self all_avoided) - 50);
       Randint 50 (screen_height (self all_avoided) - 50);
       Print (MsgSkipping 960 540)] /\
    rng (env s2) = tl (tl (rng (env all_avoided))) /\
    gui (env s2) = gui (env all_avoided) /\
    self s2 = self all_avoided /\
    cycle all_avoided = (Ok Next, s3) /\
    (n <= 50)%nat /\
    trace (env s3) = trace (env s2) ++ repeat (Sleep 100) n /\
    gui (env s3) = gui (env all_avoided).
Proof.
  split; [reflexivity|]. split; [reflexivity|].
  apply (avoided_candidate_skips_cycle all_avoided (after_draws all_avoided)
           960 540); reflexivity.
Defined.

(** With the regions the builder makes, the branch is never taken: the top
    strip ends above the margin and the taskbar strips begin below the last
    row a candidate can have. *)
Lemma built_regions_never_hit (s s' s1 : state) (x y : Z) :
  build_regions s = (Ok tt, s') ->
  get_random_position s' = (Ok (x, y), s1) ->
  is_position_in_avoid_region (self s1) x y = false.
Proof.
  intros Hb Hpos.
  destruct (build_regions_ok s) as (s0 & E & R & W & H).
  rewrite E in Hb. injection Hb as <-.
  destruct (get_random_position_inv _ _ _ _ Hpos) as (-> & Hw & Hh).
  rewrite get_random_position_ok in Hpos by assumption.
  injection Hpos as <- <-.
  pose proof (drawn_range 50 (screen_height (self s0) - 50) ltac:(lia)
                (tl (rng (env s0)))) as Hy.
  unfold is_position_in_avoid_region, after_draws. cbn [self]. rewrite R.
  cbn [region_scan].
  repeat match goal with
  | |- context [?a <=? ?b] => destruct (Z.leb_spec a b)
  end; cbn [andb]; try reflexivity; lia.
Qed.

(** C2, the claim as stated fails: [moveTo] raises an [OSError] in the first
    cycle; the error is logged, the wait of 50 sub-intervals follows, and the
    second cycle moves the pointer and clicks: the loop is still running. *)
Lemma os_error_does_not_end_loop :
  exists s',
    mouse_mover_loop 2
      (in_loop_thread [910; 490; 910; 490]
         [Some (OtherException "OSError")]) = (Ok StillRunning, s') /\
    running (self s') = true /\
    trace (env s') =
      [Print MsgLoopStarted;
       Randint 50 1870; Randint 50 1030; MoveTo 960 540 500;
       Print (MsgErrorMoving (OtherException "OSError"))] ++
      repeat (Sleep 100) 50 ++
      [Randint 50 1870; Randint 50 1030; MoveTo 960 540 500; Click;
       Print (MsgMoved 960 540)] ++
      repeat (Sleep 100) 50.
Proof.
  eexists. split; [vm_compute; reflexivity|].
  split; vm_compute; reflexivity.
Qed.

(** C2, amended: an exception of class [Exception], other than the
    fail-safe, raised by [moveTo] or by [click] during a cycle is caught
    inside [move_mouse_and_click] and logged there; the method returns, the
    flag [running] stays set, and the loop goes on with the wait and the
    next test of its condition. *)
Theorem exception_in_cycle_is_logged (s s1 : state) (x y : Z) (e : exn)
    (rest : list (option exn)) (n : nat) :
  running (self s) = true ->
  get_random_position s = (Ok (x, y), s1) ->
  is_position_in_avoid_region (self s1) x y = false ->
  gui (env s1) = Some e :: rest \/ gui (env s1) = None :: Some e :: rest ->
  e <> FailSafeException ->
  is_Exception e = true ->
  exists calls,
    (calls = [MoveTo x y 500] \/ calls = [MoveTo x y 500; Click]) /\
    move_mouse_and_click s = (Ok tt, after_error calls e rest s1) /\
    running (self (after_error calls e rest s1)) = true /\
    while_running (S n) s =
      (sleep_poll 50;; while_running n) (after_error calls e rest s1).
Proof.
  intros Hrun Hpos Hfree Hgui _ He.
  assert (Hself : self s1 = self s)
    by (destruct (get_random_position_inv _ _ _ _ Hpos) as (-> & _);
        reflexivity).
  destruct Hgui as [Hgui|Hgui].
  - exists [MoveTo x y 500].
    pose proof (move_mouse_and_click_moveTo_raises _ _ _ _ _ _
                  Hpos Hfree Hgui He) as E.
    split; [now left|]. split; [exact E|].
    split; [cbn [after_error self]; congruence|].
    apply while_running_after_return; assumption.
  - exists [MoveTo x y 500; Click].
    pose proof (move_mouse_and_click_click_raises _ _ _ _ _ _
                  Hpos Hfree Hgui He) as E.
    split; [now right|]. split; [exact E|].
    split; [cbn [after_error self]; congruence|].
    apply while_running_after_return; assumption.
Qed.

Lemma exception_in_cycle_is_logged_witness :
  let s := in_loop_thread [910; 490] [None; Some (OtherException "OSError")] in
  let e := OtherException "OSError" in
  exists calls,
    (calls = [MoveTo 960 540 500] \/ calls = [MoveTo 960 540 500; Click]) /\
    move_mouse_and_click s = (Ok tt, after_error calls e [] (after_draws s)) /\
    running (self (after_error calls e [] (after_draws s))) = true /\
    while_running 2 s =
      (sleep_poll 50;; while_running 1) (after_error calls e [] (after_draws s)).
Proof.
  cbv zeta.
  apply (exception_in_cycle_is_logged
           (in_loop_thread [910; 490] [None; Some (OtherException "OSError")])
           (after_draws
              (in_loop_thread [910; 490]
                 [None; Some (OtherException "OSError")]))
           960 540 (OtherException "OSError") [] 1%nat).
  - vm_compute; reflexivity.
  - vm_compute; reflexivity.
  - vm_compute; reflexivity.
  - right. vm_compute; reflexivity.
  - discriminate.
  - reflexivity.
Defined.

(** C3, what the code does: no fail-safe exception ever leaves
    [move_mouse_and_click], so the handler the loop has for it cannot run.
    Raised by [moveTo] (or by [click]) in the first cycle, it is caught by the
    [except Exception] of that method and logged as an error of the cycle;
    [running] stays set, and the next cycle moves and clicks. *)
Theorem failsafe_is_swallowed :
  (forall s e s',
      move_mouse_and_click s = (Raise e, s') -> e <> FailSafeException) /\
  (exists s',
      mouse_mover_loop 2
        (in_loop_thread [910; 490; 910; 490] [Some FailSafeException])
      = (Ok StillRunning, s') /\
      running (self s') = true /\
      trace (env s') =
        [Print MsgLoopStarted;
         Randint 50 1870; Randint 50 1030; MoveTo 960 540 500;
         Print (MsgErrorMoving FailSafeException)] ++
        repeat (Sleep 100) 50 ++
        [Randint 50 1870; Randint 50 1030; MoveTo 960 540 500; Click;
         Print (MsgMoved 960 540)] ++
        repeat (Sleep 100) 50) /\
  (exists s',
      mouse_mover_loop 2
        (in_loop_thread [910; 490; 910; 490] [None; Some FailSafeException])
      = (Ok StillRunning, s') /\
      running (self s') = true /\
      trace (env s') =
        [Print MsgLoopStarted;
         Randint 50 1870; Randint 50 1030; MoveTo 960 540 500; Click;
         Print (MsgErrorMoving FailSafeException)] ++
        repeat (Sleep 100) 50 ++
        [Randint 50 1870; Randint 50 1030; MoveTo 960 540 500; Click;
         Print (MsgMoved 960 540)] ++
        repeat (Sleep 100) 50).
Proof.
  split.
  { intros s e s' H ->.
    apply move_mouse_and_click_lets_no_Exception_out in H. discriminate. }
  split; (eexists; split; [vm_compute; reflexivity|]);
    split; vm_compute; reflexivity.
Qed.

(** ** Starting and stopping *)

Lemma nth_end {A} (l : list A) (a d : A) : nth (length l) (l ++ [a]) d = a.
Proof. induction l as [|b l IH]; cbn; auto. Qed.

Lemma update_nth_end {A} (l : list A) (a b : A) :
  update_nth (length l) b (l ++ [a]) = l ++ [b].
Proof. induction l as [|c l IH]; cbn; [reflexivity|]. now rewrite IH. Qed.

Lemma start_when_running s :
  running (self s) = true -> start s = (Ok tt, told_running s).
Proof.
  intros H. unfold start, bind at 1, get_self. rewrite H. reflexivity.
Qed.

Lemma start_when_stopped s :
  running (self s) = false -> start s = (Ok tt, spawned s).
Proof.
  intros H. unfold start, bind at 1, get_self. rewrite H.
  unfold Thread, Thread_start, set_status, status_of, spawned. run.
  rewrite nth_end. run. rewrite update_nth_end. reflexivity.
Qed.

Lemma starts_when_running (k : nat) : forall s,
  running (self s) = true ->
  exists s',
    starts k s = (Ok tt, s') /\
    self s' = self s /\
    threads (env s') = threads (env s) /\
    trace (env s') = trace (env s) ++ repeat (Print MsgAlreadyRunning) k.
Proof.
  induction k as [|k IH]; intros s Hrun; cbn [starts repeat].
  - exists s. rewrite app_nil_r. auto.
  - unfold bind. rewrite (start_when_running s Hrun).
    destruct (IH (told_running s) Hrun) as (s' & E & Hself & Hthr & Htr).
    exists s'. split; [exact E|]. split; [exact Hself|].
    split; [exact Hthr|]. rewrite Htr. unfold told_running. run.
    rewrite <- app_assoc. reflexivity.
Qed.

(** C7, amended: [start()] on a mover that is already running only prints:
    the flag, [self.thread] and the thread table are as before, no thread
    is created or started, however often it is called.  A first [start()]
    on a stopped mover followed by any number of further ones leaves exactly
    one more live thread than there was before it, the one in
    [self.thread]: one alone when none was alive, but not when an earlier
    [stop()] gave up waiting for its thread. *)
Theorem start_is_idempotent (s : state) (k : nat) :
  running (self s) = true ->
  start s = (Ok tt, told_running s) /\
  (exists s',
      starts k s = (Ok tt, s') /\
      self s' = self s /\
      threads (env s') = threads (env s) /\
      trace (env s') = trace (env s) ++ repeat (Print MsgAlreadyRunning) k) /\
  (forall s0, running (self s0) = false ->
      exists s1 s',
        start s0 = (Ok tt, s1) /\
        starts k s1 = (Ok tt, s') /\
        running (self s') = true /\
        thread (self s') = Some (length (threads (env s0))) /\
        threads (env s') = threads (env s0) ++ [Alive] /\
        alive_count (threads (env s')) =
          S (alive_count (threads (env s0)))).
Proof.
  intros Hrun. split; [exact (start_when_running s Hrun)|].
  split; [exact (starts_when_running k s Hrun)|].
  intros s0 Hstopped.
  destruct (starts_when_running k (spawned s0) eq_refl)
    as (s' & E & Hself & Hthr & _).
  exists (spawned s0), s'.
  split; [exact (start_when_stopped s0 Hstopped)|]. split; [exact E|].
  rewrite Hself, Hthr. unfold spawned. run.
  repeat split.
  unfold alive_count. rewrite filter_app, length_app. cbn. lia.
Qed.

Lemma start_is_idempotent_witness :
  running (self (snd (start fresh_full_hd))) = true /\
  start (snd (start fresh_full_hd)) =
    (Ok tt, told_running (snd (start fresh_full_hd))) /\
  alive_count (threads (env (snd (start (snd (start fresh_full_hd)))))) = 1%nat.
Proof.
  split; [reflexivity|].
  split; [|reflexivity].
  apply (start_is_idempotent (snd (start fresh_full_hd)) 1). reflexivity.
Defined.

(** C7, the claim as stated fails: after [start()], a [stop()] whose join
    times out and a second [start()], the mover is running and [start()] is
    the no-op it should be, yet two loop threads are alive, not one. *)
Lemma two_tasks_alive_while_running :
  exists s3,
    (start;; stop;; start) slow_thread = (Ok tt, s3) /\
    running (self s3) = true /\
    start s3 = (Ok tt, told_running s3) /\
    threads (env s3) = [Alive; Alive] /\
    alive_count (threads (env (snd (start s3)))) = 2%nat.
Proof.
  exists (snd ((start;; stop;; start) slow_thread)).
  split; [vm_compute; reflexivity|].
  split; [vm_compute; reflexivity|].
  split; [vm_compute; reflexivity|].
  split; vm_compute; reflexivity.
Qed.

Lemma stop_from_main_thread s :
  current (env s) = None ->
  exists s2,
    stop s = (Ok tt, s2) /\
    running (self s2) = false /\
    waited (env s) <= waited (env s2) <= waited (env s) + 1000.
Proof.
  intros Hmain.
  unfold stop, Thread_is_alive, Thread_join, set_status, status_of. run.
  destruct (thread (self s)) as [t|]; run;
    [|eexists; split; [reflexivity|]; run; split; [reflexivity|lia]].
  destruct (nth t (threads (env s)) Created) eqn:Est; run;
    try (eexists; split; [reflexivity|]; run; split; [reflexivity|lia]).
  rewrite Est, Hmain. run.
  destruct (join_delay (env s)) as [|[ms|] rest]; run;
    try (eexists; split; [reflexivity|]; run; split; [reflexivity|lia]).
  destruct (Z.leb_spec (Z.of_N ms) 1000); run;
    eexists; (split; [reflexivity|]); run; (split; [reflexivity|lia]).
Qed.

(** Called by the loop thread itself, as the handlers of the loop do,
    [stop()] clears the flag and then fails in [join]: a thread cannot join
    itself. *)
Lemma stop_from_loop_thread s t :
  thread (self s) = Some t ->
  current (env s) = Some t ->
  status_of t (env s) = Alive ->
  exists s2,
    stop s = (Raise RuntimeError, s2) /\
    running (self s2) = false /\
    trace (env s2) = trace (env s).
Proof.
  intros Hthr Hcur Hst.
  unfold stop, Thread_is_alive, Thread_join. run.
  rewrite Hthr. run. rewrite Hst. run. rewrite Hst, Hcur, Nat.eqb_refl.
  eexists. split; [reflexivity|]. run. auto.
Qed.

(** C8: [start()] on a stopped mover and then [stop()], both from the main
    thread: [stop()] returns, [running] is false afterwards, and between
    the two lines it joined the thread once with the timeout of one second;
    it was blocked for at most that long, and the thread is finished or
    still alive afterwards, as the thread itself decides.  Whatever happened
    to the world since [start()], [stop()] from the main thread returns
    with [running] false after at most one second of waiting. *)
Theorem start_then_stop (s : state) :
  running (self s) = false ->
  current (env s) = None ->
  (exists s1 s2,
      start s = (Ok tt, s1) /\
      stop s1 = (Ok tt, s2) /\
      running (self s2) = false /\
      trace (env s2) =
        trace (env s) ++
        [ThreadStart (length (threads (env s)));
         Join (length (threads (env s))) 1000;
         Print MsgStopped] /\
      waited (env s) <= waited (env s2) <= waited (env s) + 1000 /\
      status_of (length (threads (env s))) (env s2) =
        status_after_join (join_delay (env s))) /\
  (forall later,
      current (env later) = None ->
      exists s2,
        stop later = (Ok tt, s2) /\
        running (self s2) = false /\
        waited (env later) <= waited (env s2) <= waited (env later) + 1000).
Proof.
  intros Hstopped Hmain. split; [|exact stop_from_main_thread].
  exists (spawned s). rewrite (start_when_stopped s Hstopped).
  unfold stop, spawned, Thread_is_alive, Thread_join, set_status, status_of.
  run. rewrite nth_end. run. rewrite nth_end, Hmain. run.
  unfold status_after_join.
  destruct (join_delay (env s)) as [|[ms|] rest]; run.
  - eexists. split; [reflexivity|]. split; [reflexivity|]. run.
    rewrite nth_end, <- !app_assoc. cbn [app]. repeat split; lia.
  - destruct (Z.leb_spec (Z.of_N ms) 1000); run.
    + eexists. split; [reflexivity|]. split; [reflexivity|]. run.
      rewrite update_nth_end, nth_end, <- !app_assoc. cbn [app].
      repeat split; lia.
    + eexists. split; [reflexivity|]. split; [reflexivity|]. run.
      rewrite nth_end, <- !app_assoc. cbn [app]. repeat split; lia.
  - eexists. split; [reflexivity|]. split; [reflexivity|]. run.
    rewrite nth_end, <- !app_assoc. cbn [app]. repeat split; lia.
Qed.

Lemma start_then_stop_witness :
  running (self slow_thread) = false /\
  current (env slow_thread) = None /\
  exists s1 s2,
    start slow_thread = (Ok tt, s1) /\
    stop s1 = (Ok tt, s2) /\
    running (self s2) = false /\
    trace (env s2) =
      trace (env slow_thread) ++
      [ThreadStart 0; Join 0 1000; Print MsgStopped] /\
    waited (env slow_thread) <= waited (env s2)
      <= waited (env slow_thread) + 1000 /\
    status_of 0 (env s2) = Alive.
Proof.
  split; [reflexivity|]. split; [reflexivity|].
  apply (start_then_stop slow_thread); reflexivity.
Defined.

(* ================================================================== *)
(** * Further properties of the mover *)

(** ** What the loop thread keeps *)

Lemma event_ok_ext me me' e :
  screen_width me' = screen_width me ->
  screen_height me' = screen_height me ->
  avoid_regions me' = avoid_regions me ->
  event_ok me e -> event_ok me' e.
Proof.
  intros Hw Hh Hr.
  unfold event_ok, within_margins, is_position_in_avoid_region.
  rewrite Hw, Hh, Hr. auto.
Qed.

Lemma kept_refl s : kept s s.
Proof.
  constructor; auto. exists []. rewrite app_nil_r. auto.
Qed.

Lemma kept_trans s1 s2 s3 : kept s1 s2 -> kept s2 s3 -> kept s1 s3.
Proof.
  intros [(e1 & T1 & F1) W1 H1 R1 Th1 C1 Ru1] [(e2 & T2 & F2) W2 H2 R2 Th2 C2 Ru2].
  constructor; try congruence; auto.
  exists (e1 ++ e2). split; [rewrite T2, T1, app_assoc; reflexivity|].
  apply Forall_app. split; [exact F1|].
  eapply Forall_impl; [|exact F2].
  intros e. apply event_ok_ext; congruence.
Qed.

(** A step that touches the object at most by clearing [running] and adds
    one allowed event, or none. *)
Lemma kept_step s s' (evs : list event) :
  trace (env s') = trace (env s) ++ evs ->
  Forall (event_ok (self s)) evs ->
  screen_width (self s') = screen_width (self s) ->
  screen_height (self s') = screen_height (self s) ->
  avoid_regions (self s') = avoid_regions (self s) ->
  thread (self s') = thread (self s) ->
  current (env s') = current (env s) ->
  (running (self s') = true -> running (self s) = true) ->
  kept s s'.
Proof. intros. constructor; eauto. Qed.

Lemma keeps_ret {A} (a : A) : keeps (ret a).
Proof. intros s r s' H. injection H as <- <-. apply kept_refl. Qed.

Lemma keeps_raise {A} (e : exn) : keeps (@raise A e).
Proof. intros s r s' H. injection H as <- <-. apply kept_refl. Qed.

Lemma keeps_bind {A B} (m : M A) (k : A -> M B) :
  keeps m -> (forall a, keeps (k a)) -> keeps (bind m k).
Proof.
  intros Hm Hk s r s'. unfold bind.
  destruct (m s) as [[a|e] s1] eqn:E; intros H.
  - exact (kept_trans _ _ _ (Hm _ _ _ E) (Hk a _ _ _ H)).
  - injection H as <- <-. exact (Hm _ _ _ E).
Qed.

Lemma keeps_dispatch {A} (clauses : list (clause A)) :
  Forall (fun c => forall e, keeps (snd c e)) clauses ->
  forall e, keeps (dispatch clauses e).
Proof.
  induction 1 as [|[c h] rest Hh _ IH]; intros e; cbn [dispatch].
  - apply keeps_raise.
  - destruct (c e); [apply Hh | apply IH].
Qed.

Lemma keeps_try_except {A} (body : M A) (clauses : list (clause A)) :
  keeps body ->
  Forall (fun c => forall e, keeps (snd c e)) clauses ->
  keeps (try_except body clauses).
Proof.
  intros Hb Hc s r s'. unfold try_except.
  destruct (body s) as [[a|e] s1] eqn:E; intros H.
  - injection H as <- <-. exact (Hb _ _ _ E).
  - exact (kept_trans _ _ _ (Hb _ _ _ E) (keeps_dispatch _ Hc e _ _ _ H)).
Qed.

Lemma keeps_get_self : keeps get_self.
Proof. intros s r s' H. injection H as <- <-. apply kept_refl. Qed.

Lemma keeps_get_env : keeps get_env.
Proof. intros s r s' H. injection H as <- <-. apply kept_refl. Qed.

Lemma keeps_set_running_false : keeps (set_running false).
Proof.
  intros s r s' H. injection H as <- <-.
  apply (kept_step _ _ []); run; auto using app_nil_r. discriminate.
Qed.

Lemma keeps_log (e : event) : (forall me, event_ok me e) -> keeps (log e).
Proof.
  intros He s r s' H. injection H as <- <-.
  apply (kept_step _ _ [e]); run; auto.
Qed.

Lemma keeps_print (m : message) :
  (forall me, event_ok me (Print m)) -> keeps (print m).
Proof. exact (keeps_log (Print m)). Qed.

(** A change of the world that leaves the trace and the executing thread. *)
Lemma keeps_modify_env (f : world -> world) :
  (forall w, trace (f w) = trace w) ->
  (forall w, current (f w) = current w) ->
  keeps (modify_env f).
Proof.
  intros Ht Hc s r s' H. injection H as <- <-.
  apply (kept_step _ _ []); cbn [self env]; auto.
  rewrite Ht, app_nil_r. reflexivity.
Qed.

Ltac keeps_world :=
  apply keeps_modify_env; intros ?; reflexivity.

Lemma keeps_time_sleep ms : keeps (time_sleep ms).
Proof.
  unfold time_sleep.
  apply keeps_bind; [apply keeps_log; intros me; exact I|intros _].
  apply keeps_bind; [keeps_world|intros _].
  apply keeps_bind; [apply keeps_get_env|intros w].
  destruct (flag_cleared w) as [|[|] rest]; [apply keeps_ret| |].
  - apply keeps_bind; [keeps_world|intros _]. apply keeps_set_running_false.
  - apply keeps_bind; [keeps_world|intros _]. apply keeps_ret.
Qed.

Lemma keeps_sleep_poll k : keeps (sleep_poll k).
Proof.
  induction k as [|k IH]; cbn [sleep_poll]; [apply keeps_ret|].
  apply keeps_bind; [apply keeps_get_self|intros me].
  destruct (negb (running me)); [apply keeps_ret|].
  apply keeps_bind; [apply keeps_time_sleep|intros _]. exact IH.
Qed.

Lemma keeps_set_status t st : keeps (set_status t st).
Proof. unfold set_status. keeps_world. Qed.

Lemma keeps_Thread_join t timeout : keeps (Thread_join t timeout).
Proof.
  unfold Thread_join.
  apply keeps_bind; [apply keeps_get_env|intros w].
  assert (Hjoin : keeps
    (if match current w with Some c => Nat.eqb c t | None => false end
     then raise RuntimeError
     else log (Join t timeout);; ret tt)).
  { destruct (match current w with Some c => Nat.eqb c t | None => false end);
      [apply keeps_raise|].
    apply keeps_bind; [apply keeps_log; intros me; exact I|intros _].
    apply keeps_ret. }
  destruct (status_of t w); [apply keeps_raise| |exact Hjoin].
  destruct (match current w with Some c => Nat.eqb c t | None => false end);
    [apply keeps_raise|].
  apply keeps_bind; [apply keeps_log; intros me; exact I|intros _].
  destruct (join_delay w) as [|[ms|] rest]; [keeps_world| |].
  - apply keeps_bind; [keeps_world|intros _].
    destruct (Z.of_N ms <=? timeout); [|keeps_world].
    apply keeps_bind; [keeps_world|intros _]. apply keeps_set_status.
  - apply keeps_bind; [keeps_world|intros _]. keeps_world.
Qed.

Lemma keeps_stop : keeps stop.
Proof.
  unfold stop.
  apply keeps_bind; [apply keeps_set_running_false|intros _].
  apply keeps_bind; [apply keeps_get_self|intros me].
  apply keeps_bind; [|intros _; apply keeps_print; intros ?; exact I].
  destruct (thread me) as [t|]; [|apply keeps_ret].
  apply keeps_bind; [|intros [|]; [apply keeps_Thread_join|apply keeps_ret]].
  unfold Thread_is_alive.
  apply keeps_bind; [apply keeps_get_env|intros w]. apply keeps_ret.
Qed.

Lemma keeps_random_randint a b : keeps (random_randint a b).
Proof.
  unfold random_randint.
  apply keeps_bind; [apply keeps_log; intros me; exact I|intros _].
  destruct (b <? a); [apply keeps_raise|].
  apply keeps_bind; [apply keeps_get_env|intros w].
  destruct (rng w) as [|r rest]; [apply keeps_ret|].
  apply keeps_bind; [keeps_world|intros _]. apply keeps_ret.
Qed.

Lemma keeps_get_random_position : keeps get_random_position.
Proof.
  unfold get_random_position.
  apply keeps_bind; [apply keeps_get_self|intros me].
  apply keeps_bind; [apply keeps_random_randint|intros x].
  apply keeps_bind; [apply keeps_random_randint|intros y].
  apply keeps_ret.
Qed.

Lemma get_random_position_post s x y s1 :
  get_random_position s = (Ok (x, y), s1) -> within_margins (self s1) x y.
Proof.
  intros H.
  destruct (get_random_position_inv _ _ _ _ H) as (-> & Hw & Hh).
  rewrite get_random_position_ok in H by assumption.
  injection H as <- <-. unfold within_margins, after_draws. cbn [self].
  split; apply drawn_range; lia.
Qed.

Lemma kept_pyautogui_call ev s r s' :
  event_ok (self s) ev -> pyautogui_call ev s = (r, s') -> kept s s'.
Proof.
  intros Hev. unfold pyautogui_call. run.
  destruct (gui (env s)) as [|[e|] rest]; intros H; injection H as <- <-;
    apply (kept_step _ _ [ev]); run; auto.
Qed.

Lemma kept_use_candidate x y s r s' :
  within_margins (self s) x y -> use_candidate x y s = (r, s') -> kept s s'.
Proof.
  intros Hin. unfold use_candidate, bind at 1, get_self.
  destruct (is_position_in_avoid_region (self s) x y) eqn:Hav.
  - intros H. injection H as <- <-.
    apply (kept_step _ _ [Print (MsgSkipping x y)]); run; auto.
    constructor; [|constructor]. cbn [event_ok]. auto.
  - assert (Hev : event_ok (self s) (MoveTo x y 500))
      by (cbn [event_ok]; auto).
    unfold bind at 1, pyautogui_moveTo.
    destruct (pyautogui_call (MoveTo x y 500) s) as [[[]|e] s1] eqn:E1.
    + assert (K1 : kept s s1) by exact (kept_pyautogui_call _ _ _ _ Hev E1).
      intros H. apply (kept_trans _ _ _ K1). revert H.
      apply keeps_bind;
        [intros s2 r2 s2'; apply kept_pyautogui_call; exact I|intros _].
      apply keeps_print. intros me; exact I.
    + intros H. injection H as <- <-.
      exact (kept_pyautogui_call _ _ _ _ Hev E1).
Qed.

Lemma move_mouse_and_click_unfold :
  move_mouse_and_click =
  try_except
    ('(x, y) <- get_random_position;; use_candidate x y)
    [(is_Exception, fun e => print (MsgErrorMoving e))].
Proof. reflexivity. Qed.

Lemma keeps_move_mouse_and_click : keeps move_mouse_and_click.
Proof.
  rewrite move_mouse_and_click_unfold.
  apply keeps_try_except.
  - intros s r s'. unfold bind at 1.
    destruct (get_random_position s) as [[[x y]|e] s1] eqn:E; intros H.
    + apply (kept_trans _ s1);
        [exact (keeps_get_random_position _ _ _ E)|].
      exact (kept_use_candidate _ _ _ _ _ (get_random_position_post _ _ _ _ E) H).
    + injection H as <- <-. exact (keeps_get_random_position _ _ _ E).
  - apply Forall_cons; [|apply Forall_nil].
    intros e0. apply keeps_print. intros me; exact I.
Qed.

Lemma keeps_cycle : keeps cycle.
Proof.
  unfold cycle. apply keeps_try_except.
  - apply keeps_bind; [apply keeps_move_mouse_and_click|intros _].
    apply keeps_bind; [apply keeps_sleep_poll|intros _]. apply keeps_ret.
  - repeat apply Forall_cons; try apply Forall_nil; intros e0; cbn [snd];
      (apply keeps_bind; [apply keeps_print; intros me; exact I|intros _]);
      (apply keeps_bind; [apply keeps_stop|intros _]); apply keeps_ret.
Qed.

Lemma keeps_while_running fuel : keeps (while_running fuel).
Proof.
  induction fuel as [|fuel IH]; cbn [while_running];
    (apply keeps_bind; [apply keeps_get_self|intros me]);
    (destruct (negb (running me)); [apply keeps_ret|]).
  - apply keeps_ret.
  - apply keeps_bind; [apply keeps_cycle|intros [|]];
      [exact IH|apply keeps_ret].
Qed.

Lemma keeps_mouse_mover_loop fuel : keeps (mouse_mover_loop fuel).
Proof.
  unfold mouse_mover_loop.
  apply keeps_bind; [apply keeps_print; intros me; exact I|intros _].
  apply keeps_while_running.
Qed.

Lemma issued_kept {A} (m : M A) s :
  kept s (snd (m s)) ->
  trace (env (snd (m s))) = trace (env s) ++ issued m s /\
  Forall (event_ok (self s)) (issued m s).
Proof.
  intros [(evs & T & F) _ _ _ _ _ _]. unfold issued. rewrite T.
  rewrite skipn_app, skipn_all, Nat.sub_diag. cbn [skipn app]. auto.
Qed.

(** ** Construction *)

(** X1: [get_primary_monitor_size] leaves the object alone.  It returns
    the primary monitor's right - left by bottom - top when the pywin32 call
    returned, and what [pyautogui.size()] returned when pywin32 is missing or
    its call raised an [Exception]; it prints the fallback line in the
    latter case only.  It fails with what the pywin32 call raised outside
    [Exception], and with whatever [pyautogui.size()] raised once it fell
    back to it: that call is not guarded. *)
Theorem monitor_size_falls_back (p : platform) (s : state) :
  exists r s',
    get_primary_monitor_size p s = (r, s') /\
    self s' = self s /\
    trace (env s') =
      trace (env s) ++
      match WINDOWS_AVAILABLE p, win32_monitor p with
      | true, inl e0 =>
          if is_Exception e0 then [Print (MsgWin32Fallback e0)] else []
      | _, _ => []
      end /\
    match r with
    | Ok wh =>
        (WINDOWS_AVAILABLE p = true /\
         exists l t r b,
           win32_monitor p = inr (l, t, r, b) /\ wh = (r - l, b - t)) \/
        (falls_back p = true /\ pyautogui_size p = inr wh)
    | Raise e =>
        (WINDOWS_AVAILABLE p = true /\
         win32_monitor p = inl e /\ is_Exception e = false) \/
        (falls_back p = true /\ pyautogui_size p = inl e)
    end.
Proof.
  unfold get_primary_monitor_size, falls_back.
  destruct s as [me w]. destruct w.
  destruct (WINDOWS_AVAILABLE p);
    [destruct (win32_monitor p) as [e0|[[[l t] r] b]]|]; run;
    try (destruct (is_Exception e0) eqn:E0; run);
    try (destruct (pyautogui_size p) as [e|wh]; run);
    (eexists _, _; split; [reflexivity|]);
    cbn [self env trace]; rewrite ?app_nil_r;
    (split; [reflexivity|]); (split; [reflexivity|]);
    first [ right; split; reflexivity
          | left; split; [reflexivity|]; split; [reflexivity|exact E0]
          | left; split; [reflexivity|];
            exists l, t, r, b; split; reflexivity ].
Qed.

Lemma regions_never_hold_candidate me x y :
  regions_built me -> within_margins me x y ->
  is_position_in_avoid_region me x y = false.
Proof.
  unfold regions_built, within_margins, is_position_in_avoid_region.
  intros -> [Hx Hy]. cbn [region_scan].
  repeat match goal with
  | |- context [?a <=? ?b] => destruct (Z.leb_spec a b)
  end; cbn [andb]; try reflexivity; lia.
Qed.

(** X2: when [RandomMouseMover()] returns, the mover is stopped and has no
    thread, its screen size is the resolved one, its regions are the three
    the builder makes for that size, and nothing but printing has happened:
    no random draw, no pyautogui call, no thread. *)
Theorem constructed_mover_is_stopped (p : platform) (w : world) (s0 : state) :
  RandomMouseMover p w = (Ok tt, s0) ->
  running (self s0) = false /\
  thread (self s0) = None /\
  resolved_size p = Some (screen_width (self s0), screen_height (self s0)) /\
  regions_built (self s0) /\
  rng (env s0) = rng w /\ gui (env s0) = gui w /\
  threads (env s0) = threads w /\ current (env s0) = current w /\
  waited (env s0) = waited w.
Proof.
  destruct p as [[|] [e|[[[l t] r] b]] [e'|[pw ph]]]; try destruct e;
    intros H; vm_compute in H; try discriminate H;
    injection H as <-; vm_compute; repeat split; reflexivity.
Qed.

Lemma constructed_mover_is_stopped_witness :
  RandomMouseMover two_monitors quiet_world =
    (Ok tt, snd (RandomMouseMover two_monitors quiet_world)) /\
  running (self (snd (RandomMouseMover two_monitors quiet_world))) = false /\
  (screen_width (self (snd (RandomMouseMover two_monitors quiet_world))),
   screen_height (self (snd (RandomMouseMover two_monitors quiet_world))))
  = (2560, 1440).
Proof.
  assert (Hinit : RandomMouseMover two_monitors quiet_world =
                  (Ok tt, snd (RandomMouseMover two_monitors quiet_world)))
    by (vm_compute; reflexivity).
  split; [exact Hinit|].
  pose proof (constructed_mover_is_stopped two_monitors quiet_world
                (snd (RandomMouseMover two_monitors quiet_world)) Hinit)
    as (Hrun & _).
  split; [exact Hrun|].
  vm_compute; reflexivity.
Defined.

(** ** Safety of the loop *)

(** X3: whatever the world answers and however long it runs, the loop moves
    the pointer only to points that respect the margins and lie outside
    every region of the list, always with the duration of half a second. *)
Theorem loop_moves_stay_clear (fuel : nat) (s : state) (x y d : Z) :
  In (MoveTo x y d) (issued (mouse_mover_loop fuel) s) ->
  within_margins (self s) x y /\
  d = 500 /\
  is_position_in_avoid_region (self s) x y = false.
Proof.
  intros Hin.
  destruct (issued_kept (mouse_mover_loop fuel) s) as [_ Hok].
  { apply (keeps_mouse_mover_loop fuel s (fst (mouse_mover_loop fuel s))).
    destruct (mouse_mover_loop fuel s); reflexivity. }
  rewrite Forall_forall in Hok. exact (Hok _ Hin).
Qed.

Lemma loop_moves_stay_clear_witness :
  In (MoveTo 960 540 500)
     (issued (mouse_mover_loop 1) (in_loop_thread [910; 490] [])) /\
  within_margins (self (in_loop_thread [910; 490] [])) 960 540 /\
  500 = 500 /\
  is_position_in_avoid_region (self (in_loop_thread [910; 490] [])) 960 540
  = false.
Proof.
  assert (Hin : In (MoveTo 960 540 500)
                  (issued (mouse_mover_loop 1) (in_loop_thread [910; 490] [])))
    by (vm_compute; do 3 right; left; reflexivity).
  split; [exact Hin|].
  exact (loop_moves_stay_clear 1 (in_loop_thread [910; 490] []) 960 540 500
           Hin).
Defined.

(** X4: the loop never changes the screen size, the region list or
    [self.thread], never starts a thread, and never sets [running]: the
    flag is set after the loop only if it was set before. *)
Theorem loop_keeps_configuration (fuel : nat) (s : state) :
  screen_width (self (snd (mouse_mover_loop fuel s))) = screen_width (self s) /\
  screen_height (self (snd (mouse_mover_loop fuel s)))
  = screen_height (self s) /\
  avoid_regions (self (snd (mouse_mover_loop fuel s)))
  = avoid_regions (self s) /\
  thread (self (snd (mouse_mover_loop fuel s))) = thread (self s) /\
  (running (self (snd (mouse_mover_loop fuel s))) = true ->
   running (self s) = true) /\
  (forall t, ~ In (ThreadStart t) (issued (mouse_mover_loop fuel) s)).
Proof.
  assert (K : kept s (snd (mouse_mover_loop fuel s))).
  { apply (keeps_mouse_mover_loop fuel s (fst (mouse_mover_loop fuel s))).
    destruct (mouse_mover_loop fuel s); reflexivity. }
  destruct (issued_kept _ _ K) as [_ Hok].
  destruct K as [_ Hw Hh Hr Ht _ Hrun].
  repeat split; auto.
  intros t Hin. rewrite Forall_forall in Hok. exact (Hok _ Hin).
Qed.

(** X5: with the regions the builder makes, the loop never skips a cycle:
    no candidate is ever reported as lying in an avoidance region. *)
Theorem built_mover_never_skips (fuel : nat) (s : state) (x y : Z) :
  regions_built (self s) ->
  ~ In (Print (MsgSkipping x y)) (issued (mouse_mover_loop fuel) s).
Proof.
  intros Hbuilt Hin.
  destruct (issued_kept (mouse_mover_loop fuel) s) as [_ Hok].
  { apply (keeps_mouse_mover_loop fuel s (fst (mouse_mover_loop fuel s))).
    destruct (mouse_mover_loop fuel s); reflexivity. }
  rewrite Forall_forall in Hok. destruct (Hok _ Hin) as [Hm Hav].
  rewrite (regions_never_hold_candidate _ _ _ Hbuilt Hm) in Hav.
  discriminate.
Qed.

Lemma built_mover_never_skips_witness :
  regions_built (self (in_loop_thread [1800; 0; 3; 980] [])) /\
  ~ In (Print (MsgSkipping 1850 50))
       (issued (mouse_mover_loop 2) (in_loop_thread [1800; 0; 3; 980] [])).
Proof.
  split; [vm_compute; reflexivity|].
  apply (built_mover_never_skips 2 (in_loop_thread [1800; 0; 3; 980] [])
           1850 50).
  vm_compute; reflexivity.
Defined.

(** ** How the loop ends *)

Lemma keeps_stop_tail :
  keeps (me <- get_self;;
         match thread me with
         | Some t =>
             alive <- Thread_is_alive t;;
             if alive then Thread_join t 1000 else ret tt
         | None => ret tt
         end;;
         print MsgStopped).
Proof.
  apply keeps_bind; [apply keeps_get_self|intros me].
  apply keeps_bind; [|intros _; apply keeps_print; intros ?; exact I].
  destruct (thread me) as [t|]; [|apply keeps_ret].
  apply keeps_bind; [|intros [|]; [apply keeps_Thread_join|apply keeps_ret]].
  unfold Thread_is_alive.
  apply keeps_bind; [apply keeps_get_env|intros w]. apply keeps_ret.
Qed.

Lemma stop_leaves_flag_down s r s' :
  stop s = (r, s') -> running (self s') = false.
Proof.
  unfold stop, bind at 1, set_running. intros H.
  apply keeps_stop_tail in H. destruct H as [_ _ _ _ _ _ Hrun].
  destruct (running (self s')); [|reflexivity].
  specialize (Hrun eq_refl). discriminate.
Qed.

Lemma cycle_break s s1 :
  cycle s = (Ok Break, s1) -> running (self s1) = false.
Proof.
  unfold cycle, try_except.
  destruct ((move_mouse_and_click;; sleep_poll 50;; ret Next) s)
    as [[c|e] s0] eqn:E.
  - intros H. injection H as -> ->. revert E. unfold bind, ret.
    destruct (move_mouse_and_click s) as [[[]|e1] s2]; [|discriminate].
    destruct (sleep_poll 50 s2) as [[[]|e2] s3]; discriminate.
  - cbn [dispatch].
    destruct (is_FailSafeException e);
      [|destruct (is_KeyboardInterrupt e);
        [|destruct (is_Exception e); [|discriminate]]];
      unfold bind at 1, print, log, modify_env;
      unfold bind at 1;
      match goal with |- context [stop ?st] =>
        destruct (stop st) as [[[]|e1] s2] eqn:Es
      end; try discriminate;
      intros H; injection H as <-;
      exact (stop_leaves_flag_down _ _ _ Es).
Qed.

Lemma while_running_status fuel : forall s st s',
  while_running fuel s = (Ok st, s') ->
  running (self s') = match st with Exited => false | StillRunning => true end.
Proof.
  induction fuel as [|fuel IH]; intros s st s'; cbn [while_running];
    unfold bind at 1, get_self;
    destruct (running (self s)) eqn:Hrun; cbn [negb].
  - intros H. injection H as <- <-. exact Hrun.
  - intros H. injection H as <- <-. exact Hrun.
  - unfold bind. destruct (cycle s) as [[[|]|e] s1] eqn:E.
    + apply IH.
    + intros H. injection H as <- <-. exact (cycle_break _ _ E).
    + discriminate.
  - intros H. injection H as <- <-. exact Hrun.
Qed.

(** X6: when the loop has been left, by its condition or by a [break],
    [running] is false; when it is found still going after the cycles
    allowed, [running] is true. *)
Theorem loop_exit_means_stopped (fuel : nat) (s s' : state)
    (st : loop_status) :
  mouse_mover_loop fuel s = (Ok st, s') ->
  running (self s') = match st with Exited => false | StillRunning => true end.
Proof.
  unfold mouse_mover_loop, bind at 1, print, log, modify_env.
  apply while_running_status.
Qed.

Lemma loop_exit_means_stopped_witness :
  mouse_mover_loop 3 (in_loop_thread [910; 490] []) =
    (Ok StillRunning, snd (mouse_mover_loop 3 (in_loop_thread [910; 490] [])))
  /\ running (self (snd (mouse_mover_loop 3 (in_loop_thread [910; 490] []))))
     = true.
Proof.
  split; [vm_compute; reflexivity|].
  apply (loop_exit_means_stopped 3 (in_loop_thread [910; 490] []) _
           StillRunning).
  vm_compute; reflexivity.
Defined.

(** X7: a [KeyboardInterrupt] that comes out of [moveTo] in the thread
    [start()] made passes [move_mouse_and_click], reaches the handler of the
    loop, and that handler's [stop()] clears [running] and then fails
    joining its own thread: the loop ends with [RuntimeError], and the line
    that the mover stopped is not printed. *)
Theorem interrupt_in_loop_thread_ends_in_error (s s1 : state) (x y : Z)
    (t : nat) (rest : list (option exn)) (fuel : nat) :
  running (self s) = true ->
  thread (self s) = Some t ->
  current (env s) = Some t ->
  status_of t (env s) = Alive ->
  get_random_position s = (Ok (x, y), s1) ->
  is_position_in_avoid_region (self s1) x y = false ->
  gui (env s1) = Some KeyboardInterrupt :: rest ->
  exists s',
    while_running (S fuel) s = (Raise RuntimeError, s') /\
    running (self s') = false /\
    trace (env s') =
      trace (env s1) ++ [MoveTo x y 500; Print MsgKeyboardInterrupt].
Proof.
  intros Hrun Hthr Hcur Hst Hpos Hfree Hgui.
  destruct (get_random_position_inv _ _ _ _ Hpos) as (-> & _ & _).
  set (s2 := mkState (self (after_draws s))
               (with_gui rest
                  (with_trace (trace (env (after_draws s)) ++ [MoveTo x y 500])
                     (env (after_draws s))))).
  assert (E : move_mouse_and_click s = (Raise KeyboardInterrupt, s2)).
  { unfold move_mouse_and_click, try_except.
    unfold bind at 1. rewrite Hpos.
    unfold bind at 1, get_self. rewrite Hfree.
    unfold bind at 1, pyautogui_moveTo.
    rewrite (pyautogui_call_raises _ KeyboardInterrupt rest) by assumption.
    reflexivity. }
  set (s3 := mkState (self s2)
               (with_trace (trace (env s2) ++ [Print MsgKeyboardInterrupt])
                  (env s2))).
  destruct (stop_from_loop_thread s3 t) as (s' & Es & Hdown & Htr);
    [exact Hthr|exact Hcur|exact Hst|].
  exists s'. split; [|split; [exact Hdown|]].
  - cbn [while_running]. unfold bind at 1, get_self. rewrite Hrun.
    cbn [negb]. unfold bind at 1, cycle, try_except.
    unfold bind at 1. rewrite E. cbn [dispatch is_FailSafeException
      is_KeyboardInterrupt].
    unfold bind at 1, print, log, modify_env.
    unfold bind at 1. fold s3. rewrite Es. reflexivity.
  - rewrite Htr. subst s3 s2. run. rewrite <- app_assoc. reflexivity.
Qed.

Lemma interrupt_in_loop_thread_ends_in_error_witness :
  exists s',
    while_running 1 (in_loop_thread [910; 490] [Some KeyboardInterrupt]) =
      (Raise RuntimeError, s') /\
    running (self s') = false /\
    trace (env s') =
      trace (env (after_draws
                    (in_loop_thread [910; 490] [Some KeyboardInterrupt]))) ++
      [MoveTo 960 540 500; Print MsgKeyboardInterrupt].
Proof.
  apply (interrupt_in_loop_thread_ends_in_error
           (in_loop_thread [910; 490] [Some KeyboardInterrupt])
           (after_draws (in_loop_thread [910; 490] [Some KeyboardInterrupt]))
           960 540 0%nat [] 0%nat); vm_compute; reflexivity.
Defined.

(** ** The wait between two cycles *)

Lemma sleep_poll_stopped k s :
  running (self s) = false -> sleep_poll k s = (Ok tt, s).
Proof.
  intros H. destruct k as [|k]; cbn [sleep_poll]; [reflexivity|].
  unfold bind, get_self. rewrite H. reflexivity.
Qed.

Lemma while_running_stopped fuel s :
  running (self s) = false -> while_running fuel s = (Ok Exited, s).
Proof.
  intros H. destruct fuel; cbn [while_running];
    unfold bind, get_self; rewrite H; reflexivity.
Qed.

(** X8: a stop request that arrives during the (j+1)-th sub-interval of the
    wait ends the wait right there: [j+1] sleeps of 0.1 s instead of [k],
    the flag is down, and the loop leaves without another cycle. *)
Theorem stop_request_ends_wait (j k : nat) : forall (s : state) rest fuel,
  running (self s) = true ->
  (j < k)%nat ->
  flag_cleared (env s) = repeat false j ++ true :: rest ->
  exists s',
    sleep_poll k s = (Ok tt, s') /\
    running (self s') = false /\
    trace (env s') = trace (env s) ++ repeat (Sleep 100) (S j) /\
    waited (env s') = waited (env s) + 100 * Z.of_nat (S j) /\
    flag_cleared (env s') = rest /\
    gui (env s') = gui (env s) /\
    (sleep_poll k;; while_running fuel) s = (Ok Exited, s').
Proof.
  revert k. induction j as [|j IH]; intros k s rest fuel Hrun Hjk Hflag;
    (destruct k as [|k]; [lia|]); cbn [repeat app] in Hflag.
  - set (s1 := snd (time_sleep 100 s)).
    assert (E1 : time_sleep 100 s = (Ok tt, s1))
      by (subst s1; unfold time_sleep; run; rewrite Hflag; reflexivity).
    assert (Hs1 : running (self s1) = false)
      by (subst s1; unfold time_sleep; run; rewrite Hflag; reflexivity).
    assert (E : sleep_poll (S k) s = (Ok tt, s1)).
    { cbn [sleep_poll]. unfold bind at 1, get_self. rewrite Hrun. cbn [negb].
      unfold bind. rewrite E1. apply sleep_poll_stopped, Hs1. }
    exists s1. split; [exact E|]. split; [exact Hs1|].
    repeat split;
      try (subst s1; unfold time_sleep; run; rewrite Hflag; run;
           reflexivity).
    unfold bind. rewrite E. apply while_running_stopped, Hs1.
  - set (s1 := snd (time_sleep 100 s)).
    assert (E1 : time_sleep 100 s = (Ok tt, s1))
      by (subst s1; unfold time_sleep; run; rewrite Hflag; reflexivity).
    assert (Hs1 : running (self s1) = true)
      by (subst s1; unfold time_sleep; run; rewrite Hflag; run; exact Hrun).
    assert (Hf1 : flag_cleared (env s1) = repeat false j ++ true :: rest)
      by (subst s1; unfold time_sleep; run; rewrite Hflag; reflexivity).
    destruct (IH k s1 rest fuel Hs1 ltac:(lia) Hf1)
      as (s' & E & Hrun' & Htr & Hw & Hfl & Hgui & Eloop).
    assert (E' : sleep_poll (S k) s = (Ok tt, s')).
    { cbn [sleep_poll]. unfold bind at 1, get_self. rewrite Hrun. cbn [negb].
      unfold bind. rewrite E1. exact E. }
    exists s'. split; [exact E'|]. split; [exact Hrun'|].
    split; [rewrite Htr; subst s1; unfold time_sleep; run; rewrite Hflag;
            run; rewrite <- app_assoc; reflexivity|].
    split; [rewrite Hw; subst s1; unfold time_sleep; run; rewrite Hflag;
            run; lia|].
    split; [exact Hfl|].
    split; [rewrite Hgui; subst s1; unfold time_sleep; run; rewrite Hflag;
            reflexivity|].
    unfold bind. rewrite E'. apply while_running_stopped, Hrun'.
Qed.

Lemma stop_request_ends_wait_witness :
  exists s',
    sleep_poll 50 stop_during_third_sleep = (Ok tt, s') /\
    running (self s') = false /\
    trace (env s') =
      trace (env stop_during_third_sleep) ++ repeat (Sleep 100) 3 /\
    waited (env s') = waited (env stop_during_third_sleep) + 100 * Z.of_nat 3 /\
    flag_cleared (env s') = [] /\
    gui (env s') = gui (env stop_during_third_sleep) /\
    (sleep_poll 50;; while_running 7) stop_during_third_sleep
    = (Ok Exited, s').
Proof.
  apply (stop_request_ends_wait 2 50 stop_during_third_sleep [] 7%nat);
    [vm_compute; reflexivity|lia|vm_compute; reflexivity].
Defined.

(** X9: when nobody clears the flag during the [k] sub-intervals, the wait
    sleeps [k] times, 0.1 s each, and leaves the flag set. *)
Theorem undisturbed_wait_sleeps_through (k : nat) : forall (s : state),
  running (self s) = true ->
  Forall (fun cleared => cleared = false) (firstn k (flag_cleared (env s))) ->
  exists s',
    sleep_poll k s = (Ok tt, s') /\
    running (self s') = true /\
    self s' = self s /\
    trace (env s') = trace (env s) ++ repeat (Sleep 100) k /\
    waited (env s') = waited (env s) + 100 * Z.of_nat k /\
    flag_cleared (env s') = skipn k (flag_cleared (env s)) /\
    gui (env s') = gui (env s).
Proof.
  induction k as [|k IH]; intros s Hrun Hquiet.
  - exists s. cbn [sleep_poll repeat skipn].
    rewrite app_nil_r. repeat split; auto; lia.
  - set (s1 := snd (time_sleep 100 s)).
    assert (Hcases : flag_cleared (env s) = [] \/
                     exists rest, flag_cleared (env s) = false :: rest).
    { destruct (flag_cleared (env s)) as [|c rest]; [now left|right].
      cbn [firstn] in Hquiet. inversion Hquiet; subst. eauto. }
    assert (E1 : time_sleep 100 s = (Ok tt, s1))
      by (subst s1; unfold time_sleep; run;
          destruct Hcases as [->|[rest ->]]; reflexivity).
    assert (Hself : self s1 = self s).
    { subst s1; unfold time_sleep; run.
      destruct Hcases as [->|[rest ->]]; run; [reflexivity|].
      destruct (self s); reflexivity. }
    assert (Hf1 : flag_cleared (env s1) = tl (flag_cleared (env s)))
      by (subst s1; unfold time_sleep; run;
          destruct Hcases as [->|[rest ->]]; reflexivity).
    assert (Hq1 : Forall (fun cleared => cleared = false)
                    (firstn k (flag_cleared (env s1)))).
    { rewrite Hf1. destruct Hcases as [->|[rest Hrest]].
      - cbn [tl]. rewrite firstn_nil. constructor.
      - rewrite Hrest in *. cbn [tl firstn] in *. now inversion Hquiet. }
    destruct (IH s1 ltac:(congruence) Hq1)
      as (s' & E & Hrun' & Hself' & Htr & Hw & Hfl & Hgui).
    exists s'. split.
    { cbn [sleep_poll]. unfold bind at 1, get_self. rewrite Hrun. cbn [negb].
      unfold bind. rewrite E1. exact E. }
    split; [exact Hrun'|]. split; [congruence|].
    split; [rewrite Htr; subst s1; unfold time_sleep; run;
            destruct Hcases as [->|[rest ->]]; run;
            rewrite <- app_assoc; reflexivity|].
    split; [rewrite Hw; subst s1; unfold time_sleep; run;
            destruct Hcases as [->|[rest ->]]; run; lia|].
    split; [rewrite Hfl, Hf1; destruct (flag_cleared (env s));
            cbn [tl skipn]; [now rewrite skipn_nil|reflexivity]|].
    rewrite Hgui. subst s1; unfold time_sleep; run.
    destruct Hcases as [->|[rest ->]]; reflexivity.
Qed.

Lemma undisturbed_wait_sleeps_through_witness :
  exists s',
    sleep_poll 50 (in_loop_thread [] []) = (Ok tt, s') /\
    running (self s') = true /\
    self s' = self (in_loop_thread [] []) /\
    trace (env s') =
      trace (env (in_loop_thread [] [])) ++ repeat (Sleep 100) 50 /\
    waited (env s') = waited (env (in_loop_thread [] [])) + 100 * Z.of_nat 50 /\
    flag_cleared (env s') = skipn 50 (flag_cleared (env (in_loop_thread [] [])))
    /\ gui (env s') = gui (env (in_loop_thread [] [])).
Proof.
  apply (undisturbed_wait_sleeps_through 50 (in_loop_thread [] []));
    [vm_compute; reflexivity|vm_compute; constructor].
Defined.

(** ** Stopping, and starting again *)

(** X10: [stop()] on a mover that has no thread, or whose thread is not
    alive (never started, or already finished), does not join: it clears
    [running], prints that the mover stopped and returns at once, whichever
    thread calls it. *)
Theorem stop_without_live_thread (s : state) :
  (forall t, thread (self s) = Some t -> status_of t (env s) <> Alive) ->
  stop s =
  (Ok tt,
   mkState
     (mkMover false (thread (self s)) (screen_width (self s))
        (screen_height (self s)) (avoid_regions (self s)))
     (with_trace (trace (env s) ++ [Print MsgStopped]) (env s))).
Proof.
  intros H. unfold stop, Thread_is_alive. run.
  destruct (thread (self s)) as [t|]; run; [|reflexivity].
  specialize (H t eq_refl).
  destruct (status_of t (env s)); [reflexivity|congruence|reflexivity].
Qed.

Lemma stop_without_live_thread_witness :
  stop fresh_full_hd =
  (Ok tt,
   mkState
     (mkMover false None 1920 1080
        [(1770, 0, 1920, 30); (0, 1040, 100, 1080); (0, 1040, 1920, 1080)])
     (with_trace (trace (env fresh_full_hd) ++ [Print MsgStopped])
        (env fresh_full_hd))).
Proof.
  rewrite (stop_without_live_thread fresh_full_hd);
    [vm_compute; reflexivity|].
  intros t H. vm_compute in H. discriminate H.
Defined.

Lemma stop_after_spawn s :
  current (env s) = None ->
  exists s2,
    stop (spawned s) = (Ok tt, s2) /\
    running (self s2) = false /\
    thread (self s2) = Some (length (threads (env s))) /\
    threads (env s2) =
      threads (env s) ++ [status_after_join (join_delay (env s))].
Proof.
  intros Hmain.
  unfold stop, spawned, Thread_is_alive, Thread_join, set_status, status_of.
  run. rewrite nth_end. run. rewrite nth_end, Hmain. run.
  unfold status_after_join.
  destruct (join_delay (env s)) as [|[ms|] rest]; run.
  - eexists. split; [reflexivity|]. run. auto.
  - destruct (Z.leb_spec (Z.of_N ms) 1000); run.
    + eexists. split; [reflexivity|]. run.
      rewrite update_nth_end. auto.
    + eexists. split; [reflexivity|]. run. auto.
  - eexists. split; [reflexivity|]. run. auto.
Qed.

(** X11: [start()], [stop()], [start()] from the main thread on a stopped
    mover: the second [start()] makes a new thread whatever became of the
    first, so when the first did not exit within the second that [stop()]
    waits, two loop threads are alive, both polling the one flag. *)
Theorem restart_makes_another_thread (s : state) :
  running (self s) = false ->
  current (env s) = None ->
  exists s3,
    (start;; stop;; start) s = (Ok tt, s3) /\
    running (self s3) = true /\
    thread (self s3) = Some (S (length (threads (env s)))) /\
    threads (env s3) =
      threads (env s) ++ [status_after_join (join_delay (env s)); Alive].
Proof.
  intros Hstopped Hmain.
  destruct (stop_after_spawn s Hmain) as (s2 & E2 & Hrun2 & Hthr2 & Htab2).
  exists (spawned s2).
  unfold bind. rewrite (start_when_stopped s Hstopped), E2.
  split; [exact (start_when_stopped s2 Hrun2)|].
  unfold spawned. run. rewrite Htab2, length_app, <- app_assoc.
  cbn [length app]. rewrite Nat.add_1_r. auto.
Qed.

Lemma restart_makes_another_thread_witness :
  exists s3,
    (start;; stop;; start) slow_thread = (Ok tt, s3) /\
    running (self s3) = true /\
    thread (self s3) = Some 1%nat /\
    threads (env s3) = [Alive; Alive].
Proof.
  destruct (restart_makes_another_thread slow_thread)
    as (s3 & E & Hrun & Hthr & Htab);
    [vm_compute; reflexivity|vm_compute; reflexivity|].
  exists s3. split; [exact E|]. split; [exact Hrun|].
  split; [rewrite Hthr; vm_compute; reflexivity|].
  rewrite Htab. vm_compute; reflexivity.
Defined.

(** ** One call of [move_mouse_and_click] *)

(** X12: on a screen with a dimension below 100 the cycle fails in
    [random.randint] before any pyautogui call; [move_mouse_and_click]
    catches the [ValueError], prints it and returns, the object untouched. *)
Theorem small_screen_cycle_only_logs (s : state) :
  screen_width (self s) < 100 \/ screen_height (self s) < 100 ->
  exists s' draws,
    move_mouse_and_click s = (Ok tt, s') /\
    self s' = self s /\
    gui (env s') = gui (env s) /\
    trace (env s') =
      trace (env s) ++ draws ++ [Print (MsgErrorMoving ValueError)] /\
    (draws = [Randint 50 (screen_width (self s) - 50)] \/
     draws = [Randint 50 (screen_width (self s) - 50);
              Randint 50 (screen_height (self s) - 50)]).
Proof.
  intros Hdim.
  unfold move_mouse_and_click, try_except, get_random_position.
  unfold bind at 1. unfold bind at 1, get_self. cbn [self].
  destruct (Z_lt_le_dec (screen_width (self s)) 100) as [Hw|Hw].
  - unfold bind at 1. rewrite random_randint_empty by lia.
    cbn [dispatch is_Exception]. run.
    eexists _, [Randint 50 (screen_width (self s) - 50)].
    split; [reflexivity|]. run. rewrite <- app_assoc. auto.
  - unfold bind at 1. rewrite random_randint_ok by lia.
    unfold bind at 1. rewrite random_randint_empty by (cbn [self]; lia).
    cbn [dispatch is_Exception]. run.
    eexists _, [Randint 50 (screen_width (self s) - 50);
                Randint 50 (screen_height (self s) - 50)].
    split; [reflexivity|]. run. rewrite <- !app_assoc. auto.
Qed.

Lemma small_screen_cycle_only_logs_witness :
  exists s' draws,
    move_mouse_and_click narrow_screen = (Ok tt, s') /\
    self s' = self narrow_screen /\
    gui (env s') = gui (env narrow_screen) /\
    trace (env s') =
      trace (env narrow_screen) ++ draws ++
      [Print (MsgErrorMoving ValueError)] /\
    (draws = [Randint 50 (screen_width (self narrow_screen) - 50)] \/
     draws = [Randint 50 (screen_width (self narrow_screen) - 50);
              Randint 50 (screen_height (self narrow_screen) - 50)]).
Proof.
  apply (small_screen_cycle_only_logs narrow_screen).
  left. vm_compute; reflexivity.
Defined.

(** X13: when the candidate is outside every region and neither pyautogui
    call raises, [move_mouse_and_click] moves to the candidate in half a
    second, clicks once, prints the line of the move and returns; it used
    the two outcomes of pyautogui and left the object alone. *)
Theorem free_candidate_moves_and_clicks_once (s s1 : state) (x y : Z) :
  get_random_position s = (Ok (x, y), s1) ->
  is_position_in_avoid_region (self s1) x y = false ->
  Forall (fun outcome => outcome = None) (firstn 2 (gui (env s1))) ->
  exists s',
    move_mouse_and_click s = (Ok tt, s') /\
    trace (env s') =
      trace (env s1) ++ [MoveTo x y 500; Click; Print (MsgMoved x y)] /\
    gui (env s') = skipn 2 (gui (env s1)) /\
    self s' = self s1.
Proof.
  intros Hpos Hfree Hgui.
  unfold move_mouse_and_click, try_except.
  unfold bind at 1. rewrite Hpos.
  unfold bind at 1, get_self. rewrite Hfree.
  unfold pyautogui_moveTo, pyautogui_click, pyautogui_call. run.
  destruct (gui (env s1)) as [|[e1|] [|[e2|] rest]]; cbn [firstn] in Hgui;
    try (exfalso; inversion Hgui as [|? ? Hhd Htl];
         first [discriminate Hhd | inversion Htl; congruence]);
    run;
    (eexists; split; [reflexivity|]); run; rewrite <- !app_assoc; auto.
Qed.

Lemma free_candidate_moves_and_clicks_once_witness :
  exists s',
    move_mouse_and_click (in_loop_thread [910; 490] [None; None; None]) =
      (Ok tt, s') /\
    trace (env s') =
      trace (env (after_draws (in_loop_thread [910; 490] [None; None; None])))
      ++ [MoveTo 960 540 500; Click; Print (MsgMoved 960 540)] /\
    gui (env s') = [None] /\
    self s' = self (in_loop_thread [910; 490] [None; None; None]).
Proof.
  assert (Hpos : get_random_position
                   (in_loop_thread [910; 490] [None; None; None]) =
                 (Ok (960, 540),
                  after_draws (in_loop_thread [910; 490] [None; None; None])))
    by (vm_compute; reflexivity).
  destruct (free_candidate_moves_and_clicks_once _ _ _ _ Hpos)
    as (s' & E & Htr & Hgui & Hself).
  - vm_compute; reflexivity.
  - vm_compute. repeat constructor.
  - exists s'. split; [exact E|]. split; [exact Htr|].
    split; [rewrite Hgui; vm_compute; reflexivity|].
    rewrite Hself. vm_compute; reflexivity.
Defined.
